(** * botaffiumeiro: the link-processing pipeline

    A shallow embedding of [botaffiumeiro.py]: the two vendor handlers
    (AliExpress, Amazon), the request signature, the identifier
    extraction, the exclusion filter, the link shortener and the
    dispatcher that answers a chat message.

    Conventions of the embedding.
    - A Python [str] is the list of its code points ([str := list N]);
      string order is the code-point order Python uses. [py "..."]
      reads a literal of this file.
    - [hashlib.md5], [str.encode], [sorted], [re.search] and
      [re.findall] belong to the Python library, not to the program:
      they are written out here after their documentation (RFC 1321 for
      the digest, the leftmost, greedy, backtracking matching of [re]
      for the patterns) and checked on samples against Python. The
      classes [\d] and [\w] are Unicode classes: beyond ASCII they are
      a parameter, [UnicodeData].
    - Code that may raise returns an [outcome]; all the exceptions here
      are of class [Exception].
    - The clock, the HTTP client and the Amazon client are the outside
      world, a state [W] that each call reads and advances; the
      computations of the program run in [Eff.M], which threads that
      state and collects the replies sent to the chat ([Eff.outbox]).
      Sending a reply always succeeds, and logging is left out.
    - [config_manager] is one snapshot of the configuration, given as
      an argument: the reload that runs beside the program is not
      modelled.
    - [async]/[await] is sequential code: one message is processed by
      one sequence of calls. *)

From Stdlib Require Import ZArith NArith List String Ascii Lia Bool.
From stdpp Require Import base option list sorting gmap.

Local Open Scope list_scope.

(* ===================================================================== *)
(** * Python text *)
(* ===================================================================== *)

(** A code point, and a [str]. *)
Definition char : Type := N.
Definition str : Type := list N.

Module Text.

(** Reading a literal of this file (UTF-8 bytes) as a [str]. [need]
    continuation bytes are still expected for the code point whose
    high bits are [acc]. *)
Fixpoint decode (bs : list N) (need : nat) (acc : N) : str :=
  match bs with
  | [] => []
  | b :: bs' =>
      match need with
      | S n =>
          let acc' := (acc * 64 + b mod 64)%N in
          match n with
          | O => acc' :: decode bs' 0 0%N
          | S _ => decode bs' n acc'
          end
      | O =>
          if (b <? 128)%N then b :: decode bs' 0 0%N
          else if (b <? 224)%N then decode bs' 1 (b mod 32)%N
          else if (b <? 240)%N then decode bs' 2 (b mod 16)%N
          else decode bs' 3 (b mod 8)%N
      end
  end.

Definition py (s : string) : str :=
  decode (map N_of_ascii (list_ascii_of_string s)) 0 0%N.

(** [a < b], [a == b], [a > b] on [str]: the first differing code
    point decides, a proper prefix is smaller. *)
Fixpoint compare (a b : str) : comparison :=
  match a, b with
  | [], [] => Eq
  | [], _ :: _ => Lt
  | _ :: _, [] => Gt
  | x :: a', y :: b' =>
      match N.compare x y with
      | Eq => compare a' b'
      | c => c
      end
  end.

Definition lt (a b : str) : Prop := compare a b = Lt.

(** [needle in hay] for two strings. *)
Fixpoint startswith (prefix s : str) : bool :=
  match prefix, s with
  | [], _ => true
  | _ :: _, [] => false
  | x :: p', y :: s' => (x =? y)%N && startswith p' s'
  end.

Fixpoint contains (needle hay : str) : bool :=
  startswith needle hay ||
  match hay with
  | [] => false
  | _ :: hay' => contains needle hay'
  end.

(** [str(n)] for an [int]. *)
Definition digit_char (d : N) : char := (48 + d)%N.

Fixpoint decimal_digits (fuel : nat) (n : N) (acc : str) : str :=
  match fuel with
  | O => acc
  | S fuel' =>
      let acc' := digit_char (n mod 10) :: acc in
      if (n <? 10)%N then acc' else decimal_digits fuel' (n / 10)%N acc'
  end.

Definition str_of_int (z : Z) : str :=
  let n := Z.abs_N z in
  let ds := decimal_digits (S (N.to_nat (N.log2 n))) n [] in
  if (z <? 0)%Z then 45%N :: ds else ds.

End Text.

Abbreviation py := Text.py.
Opaque Text.py.

(* ===================================================================== *)
(** * Exceptions *)
(* ===================================================================== *)

(** The exceptions of this program are all subclasses of [Exception];
    that is the class its two [except] clauses catch. *)
Inductive exn : Type :=
| UnicodeEncodeError
| KeyError
| TypeError
| AttributeError
| IndexError
| HTTPError
| OtherException (name : string).

Inductive outcome (A : Type) : Type :=
| Returns (a : A)
| Raises (e : exn).
Arguments Returns {A} a.
Arguments Raises {A} e.

#[global] Instance outcome_ret : MRet outcome := fun A a => Returns a.
#[global] Instance outcome_bind : MBind outcome := fun A B f m =>
  match m with
  | Returns a => f a
  | Raises e => Raises e
  end.
#[global] Instance outcome_fmap : FMap outcome := fun A B f m =>
  match m with
  | Returns a => Returns (f a)
  | Raises e => Raises e
  end.

(* ===================================================================== *)
(** * [str.encode("utf-8")] and [hashlib.md5] *)
(* ===================================================================== *)

Module UTF8.

(** Surrogates (and numbers that are no code point) have no UTF-8
    form: [encode] raises on them. *)
Definition encodable (c : char) : bool :=
  (c <? 0xD800)%N || ((0xDFFF <? c)%N && (c <=? 0x10FFFF)%N).

Definition bytes_of_char (c : char) : list Z :=
  let z := Z.of_N c in
  if (z <? 0x80)%Z then [z]
  else if (z <? 0x800)%Z then
    [0xC0 + z / 64; 0x80 + z mod 64]%Z
  else if (z <? 0x10000)%Z then
    [0xE0 + z / 4096; 0x80 + (z / 64) mod 64; 0x80 + z mod 64]%Z
  else
    [0xF0 + z / 262144; 0x80 + (z / 4096) mod 64;
     0x80 + (z / 64) mod 64; 0x80 + z mod 64]%Z.

Definition bytes (s : str) : list Z := flat_map bytes_of_char s.

Definition encode (s : str) : outcome (list Z) :=
  if forallb encodable s then Returns (bytes s)
  else Raises UnicodeEncodeError.

End UTF8.

Module MD5.
Local Open Scope Z_scope.

Definition w32 (x : Z) : Z := x mod 2 ^ 32.

Definition rotl (x c : Z) : Z :=
  Z.lor (w32 (Z.shiftl x c)) (Z.shiftr x (32 - c)).

Definition not32 (x : Z) : Z := Z.lxor x 0xFFFFFFFF.

Definition K : list Z :=
  [ 0xd76aa478; 0xe8c7b756; 0x242070db; 0xc1bdceee; 0xf57c0faf; 0x4787c62a;
    0xa8304613; 0xfd469501; 0x698098d8; 0x8b44f7af; 0xffff5bb1; 0x895cd7be;
    0x6b901122; 0xfd987193; 0xa679438e; 0x49b40821; 0xf61e2562; 0xc040b340;
    0x265e5a51; 0xe9b6c7aa; 0xd62f105d; 0x02441453; 0xd8a1e681; 0xe7d3fbc8;
    0x21e1cde6; 0xc33707d6; 0xf4d50d87; 0x455a14ed; 0xa9e3e905; 0xfcefa3f8;
    0x676f02d9; 0x8d2a4c8a; 0xfffa3942; 0x8771f681; 0x6d9d6122; 0xfde5380c;
    0xa4beea44; 0x4bdecfa9; 0xf6bb4b60; 0xbebfbc70; 0x289b7ec6; 0xeaa127fa;
    0xd4ef3085; 0x04881d05; 0xd9d4d039; 0xe6db99e5; 0x1fa27cf8; 0xc4ac5665;
    0xf4292244; 0x432aff97; 0xab9423a7; 0xfc93a039; 0x655b59c3; 0x8f0ccc92;
    0xffeff47d; 0x85845dd1; 0x6fa87e4f; 0xfe2ce6e0; 0xa3014314; 0x4e0811a1;
    0xf7537e82; 0xbd3af235; 0x2ad7d2bb; 0xeb86d391 ].

Definition S : list Z :=
  [ 7; 12; 17; 22; 7; 12; 17; 22; 7; 12; 17; 22; 7; 12; 17; 22;
    5; 9; 14; 20; 5; 9; 14; 20; 5; 9; 14; 20; 5; 9; 14; 20;
    4; 11; 16; 23; 4; 11; 16; 23; 4; 11; 16; 23; 4; 11; 16; 23;
    6; 10; 15; 21; 6; 10; 15; 21; 6; 10; 15; 21; 6; 10; 15; 21 ].

Record state : Type := State { sA : Z; sB : Z; sC : Z; sD : Z }.

Definition init : state :=
  State 0x67452301 0xefcdab89 0x98badcfe 0x10325476.

(** One of the 64 operations of a block; [M] is the block as sixteen
    little-endian words. *)
Definition step (M : list Z) (st : state) (i : nat) : state :=
  let '(State a b c d) := st in
  let zi := Z.of_nat i in
  let '(f, g) :=
    if zi <? 16 then (Z.lor (Z.land b c) (Z.land (not32 b) d), zi)
    else if zi <? 32 then
      (Z.lor (Z.land d b) (Z.land (not32 d) c), (5 * zi + 1) mod 16)
    else if zi <? 48 then (Z.lxor b (Z.lxor c d), (3 * zi + 5) mod 16)
    else (Z.lxor c (Z.lor b (not32 d)), (7 * zi) mod 16) in
  let f' := w32 (f + a + nth i K 0 + nth (Z.to_nat g) M 0) in
  State d (w32 (b + rotl f' (nth i S 0))) b c.

Definition word_of_bytes (bs : list Z) : Z :=
  fold_right (fun b acc => b + 256 * acc) 0 bs.

Fixpoint words (n : nat) (bs : list Z) : list Z :=
  match n with
  | O => []
  | Datatypes.S n' => word_of_bytes (firstn 4 bs) :: words n' (skipn 4 bs)
  end.

Definition block (st : state) (bs : list Z) : state :=
  let M := words 16 bs in
  let '(State a b c d) := fold_left (step M) (seq 0 64) st in
  State (w32 (sA st + a)) (w32 (sB st + b))
        (w32 (sC st + c)) (w32 (sD st + d)).

Fixpoint blocks (n : nat) (st : state) (bs : list Z) : state :=
  match n with
  | O => st
  | Datatypes.S n' => blocks n' (block st (firstn 64 bs)) (skipn 64 bs)
  end.

Definition le_bytes (n : nat) (x : Z) : list Z :=
  map (fun i => Z.land (Z.shiftr x (8 * Z.of_nat i)) 255) (seq 0 n).

Definition pad (msg : list Z) : list Z :=
  let len := Z.of_nat (length msg) in
  msg ++ [0x80] ++ repeat 0 (Z.to_nat ((55 - len) mod 64))
      ++ le_bytes 8 ((8 * len) mod 2 ^ 64).

(** [hashlib.md5(msg).digest()]: sixteen bytes. *)
Definition digest (msg : list Z) : list Z :=
  let p := pad msg in
  let '(State a b c d) := blocks (length p / 64)%nat init p in
  le_bytes 4 a ++ le_bytes 4 b ++ le_bytes 4 c ++ le_bytes 4 d.

Definition hex_digit (n : Z) : char :=
  Z.to_N (if n <? 10 then 48 + n else 87 + n).

Definition hex_of_byte (b : Z) : str := [hex_digit (b / 16); hex_digit (b mod 16)].

(** [hashlib.md5(msg).hexdigest()]. *)
Definition hexdigest (msg : list Z) : str := flat_map hex_of_byte (digest msg).

End MD5.

(* ===================================================================== *)
(** * [sorted(params.items())] *)
(* ===================================================================== *)

(** The order of two [(key, value)] tuples of strings: the keys decide,
    and the values only between equal keys. *)
Definition item_le (x y : str * str) : Prop :=
  match Text.compare x.1 y.1 with
  | Lt => True
  | Eq => Text.compare x.2 y.2 <> Gt
  | Gt => False
  end.

#[global] Instance item_le_dec x y : Decision (item_le x y).
Proof.
  unfold item_le. destruct (Text.compare x.1 y.1).
  - destruct (Text.compare x.2 y.2);
      [left; discriminate | left; discriminate | right; intros H; apply H; reflexivity].
  - left. exact I.
  - right. intros [].
Defined.

Definition sorted (items : list (str * str)) : list (str * str) :=
  merge_sort item_le items.

(* ===================================================================== *)
(** * The patterns of [re] *)
(* ===================================================================== *)

(** What the Unicode character database says beyond ASCII: the decimal
    digits (category Nd, the class [\d]) and the alphanumeric characters
    (with ['_'], the class [\w]). On ASCII both classes are written out
    below. *)
Class UnicodeData : Type := {
  nonascii_decimal : char -> bool;
  nonascii_alnum : char -> bool;
}.

Module Re.

Definition ascii_digit (c : char) : bool := (48 <=? c)%N && (c <=? 57)%N.
Definition ascii_upper (c : char) : bool := (65 <=? c)%N && (c <=? 90)%N.
Definition ascii_lower (c : char) : bool := (97 <=? c)%N && (c <=? 122)%N.

(** [\d] *)
Definition decimal `{UnicodeData} (c : char) : bool :=
  if (c <? 128)%N then ascii_digit c else nonascii_decimal c.

(** [\w] *)
Definition word `{UnicodeData} (c : char) : bool :=
  if (c <? 128)%N
  then ascii_digit c || ascii_upper c || ascii_lower c || (c =? 95)%N
  else nonascii_alnum c.

Section Matching.
Context {R : Type}.

(** A pattern is matched at the head of the text [s]; [k] is tried
    on what the pattern leaves, and a [None] from it sends the
    pattern back to its next alternative. *)
Definition cont : Type := str -> option R.
Definition pattern : Type := str -> cont -> option R.

(** One character of a class. *)
Definition chr (p : char -> bool) : pattern := fun s k =>
  match s with
  | c :: s' => if p c then k s' else None
  | [] => None
  end.

(** A literal text. *)
Fixpoint lit (l : str) : pattern := fun s k =>
  match l with
  | [] => k s
  | c :: l' => chr (N.eqb c) s (fun s' => lit l' s' k)
  end.

(** [p*] for a class, greedy: the longest run first, then shorter
    ones. *)
Fixpoint star (p : char -> bool) (s : str) (k : cont) : option R :=
  match s with
  | c :: s' =>
      if p c then
        match star p s' k with
        | Some r => Some r
        | None => k s
        end
      else k s
  | [] => k s
  end.

(** [p+] *)
Definition plus (p : char -> bool) : pattern := fun s k =>
  chr p s (fun s' => star p s' k).

(** [p{n}] *)
Fixpoint rep (n : nat) (p : char -> bool) : pattern := fun s k =>
  match n with
  | O => k s
  | S n' => chr p s (fun s' => rep n' p s' k)
  end.

(** [a|b] *)
Definition alt (a b : pattern) : pattern := fun s k =>
  match a s k with
  | Some r => Some r
  | None => b s k
  end.

(** [a?], greedy *)
Definition opt (a : pattern) : pattern := alt a (fun s k => k s).

(** [$] without [re.MULTILINE]: the end of the text, or just before
    a line feed that ends it. *)
Definition eol : pattern := fun s k =>
  match s with
  | [] => k s
  | [c] => if (c =? 10)%N then k s else None
  | _ :: _ :: _ => None
  end.

(** [re.search]: the first position of the text, from the left,
    where the pattern matches. *)
Fixpoint search (m : str -> option R) (s : str) : option R :=
  match m s with
  | Some r => Some r
  | None =>
      match s with
      | [] => None
      | _ :: s' => search m s'
      end
  end.

End Matching.

(** What follows a maximal run of a class does not start with a
    character of the class. *)
Definition stops (p : char -> bool) (s : str) : Prop :=
  match s with
  | [] => True
  | c :: _ => p c = false
  end.

(** The text between two positions: [s2] is what is left of [s1]
    after a match. *)
Definition between (s1 s2 : str) : str := take (length s1 - length s2) s1.

(** [re.findall] for a pattern without groups: the matched texts, from
    left to right, each search resuming where the last match ended.
    [m] gives what a match at the head leaves; [skip] characters
    belong to the last match. *)
Fixpoint findall (m : str -> option str) (skip : nat) (s : str) : list str :=
  match skip with
  | S n =>
      match s with
      | [] => []
      | _ :: s' => findall m n s'
      end
  | O =>
      match m s with
      | Some rest =>
          between s rest ::
            match s with
            | [] => []
            | _ :: s' => findall m (length s - length rest - 1) s'
            end
      | None =>
          match s with
          | [] => []
          | _ :: s' => findall m 0 s'
          end
      end
  end.

End Re.

(* ===================================================================== *)
(** * Python values *)
(* ===================================================================== *)

(** A value the program only tests ([if v], [v or w]) and formats
    ([f"{v}"]): [None], a [bool], a [str], or any other object, given by
    its truth value and its [str()]. *)
Inductive value : Type :=
| VNone
| VBool (b : bool)
| VStr (s : str)
| VOther (truth : bool) (shown : str).

Definition truthy (v : value) : bool :=
  match v with
  | VNone => false
  | VBool b => b
  | VStr s => match s with [] => false | _ :: _ => true end
  | VOther t _ => t
  end.

(** [f"{v}"] *)
Definition format (v : value) : str :=
  match v with
  | VNone => py "None"
  | VBool true => py "True"
  | VBool false => py "False"
  | VStr s => s
  | VOther _ shown => shown
  end.

(** [a or b] *)
Definition or_ (a b : value) : value := if truthy a then a else b.

(** [x.attr] where [x] may be [None], and [l[0]]. *)
Definition attr {A} (x : option A) : outcome A :=
  match x with
  | Some a => Returns a
  | None => Raises AttributeError
  end.

Definition first {A} (l : option (list A)) : outcome A :=
  match l with
  | None => Raises TypeError
  | Some [] => Raises IndexError
  | Some (a :: _) => Returns a
  end.

(* ===================================================================== *)
(** * What the program imports *)
(* ===================================================================== *)

(** [config.ConfigurationManager]: the attributes the pipeline reads.
    The program reads them from one global object; here the object is
    an argument. A user is excluded by id or by name, so the excluded
    set holds both kinds. *)
Record ConfigurationManager : Type := {
  aliexpress_app_key : str;
  aliexpress_app_secret : str;
  aliexpress_aff_id : str;
  amazon_access_key : str;
  amazon_secret_key : str;
  amazon_affiliate_tag : str;
  amazon_country : str;
  excluded_users : gset (Z + str);
}.

Module telegram.
Record User : Type := { id : Z; username : option str }.
Record Message : Type := { text : option str }.
Record Update : Type := {
  message : option Message;
  effective_user : option User;
}.

(** What the bot sends back: [message.reply_text] and
    [message.reply_photo]. *)
Inductive reply : Type :=
| reply_text (text : str) (parse_mode : option str)
| reply_photo (photo : value) (caption : str) (parse_mode : option str).
End telegram.

Module requests.
(** The body of a response once [response.json()] has parsed it, as
    far as the program looks into it: [data] itself, [data["result"]]
    and the fields of the latter. A [data] that is no dictionary (a
    list, a string, a number, [None]) answers ["result" in data] with a
    [bool] or a [TypeError], and has no item ["result"]; a result that
    is no dictionary has no [get]. *)
Inductive json_result : Type :=
| ResultDict (fields : gmap str value)
| ResultOther.

Inductive json_data : Type :=
| DataDict (entries : gmap str json_result)
| DataOther (has_result : outcome bool).

Record Response : Type := {
  status_code : Z;
  text : str;
  json : outcome json_data;
}.

Definition raise_for_status (r : Response) : outcome unit :=
  if (400 <=? status_code r)%Z && (status_code r <? 600)%Z
  then Raises HTTPError else Returns tt.

(** ["result" in data] *)
Definition contains (key : str) (data : json_data) : outcome bool :=
  match data with
  | DataDict d => Returns (bool_decide (is_Some (d !! key)))
  | DataOther b => b
  end.

(** [data["result"]] *)
Definition getitem (data : json_data) (key : str) : outcome json_result :=
  match data with
  | DataDict d =>
      match d !! key with
      | Some r => Returns r
      | None => Raises KeyError
      end
  | DataOther _ => Raises TypeError
  end.

(** [result.get(key)] *)
Definition get (result : json_result) (key : str) : outcome value :=
  match result with
  | ResultDict d => Returns (default VNone (d !! key))
  | ResultOther => Raises AttributeError
  end.
End requests.

Module paapi.
(** [amazon.paapi]: the client, known by what it was built with, and
    the objects [get_items] answers with, as far as the program reads
    them. An attribute that may be [None] is an [option]. *)
Record AmazonAPI : Type := {
  access_key : str;
  secret_key : str;
  partner_tag : str;
  country : str;
}.

Record Title : Type := { display_value : value }.
Record Features : Type := { display_values : option (list value) }.
Record ItemInfo : Type := { title : option Title; features : option Features }.
Record Large : Type := { url : value }.
Record Primary : Type := { large : option Large }.
Record Images : Type := { primary : option Primary }.
Record Price : Type := { display_amount : value; savings_basis : value }.
Record Listing : Type := { price : option Price }.
Record Offers : Type := { listings : option (list Listing) }.
Record Item : Type := {
  item_info : option ItemInfo;
  images : option Images;
  offers : option Offers;
}.
Record ItemsResult : Type := { items : option (list Item) }.
Record GetItemsResponse : Type := { items_result : option ItemsResult }.
End paapi.

(** The outside world, in a state [W]: the clock, the HTTP client and
    the Amazon client. Each call sees the state the last one left. *)
Class Outside (W : Type) : Type := {
  (** [int(time.time() * 1000)] *)
  time_ms : W -> Z * W;
  (** [requests.get(url, params=..., timeout=...)] *)
  requests_get :
    str -> option (gmap str str) -> option Z -> W -> outcome requests.Response * W;
  (** [AmazonAPI(access_key=..., secret_key=..., partner_tag=..., country=...)]:
      the constructor of the library, which may raise. *)
  AmazonAPI : str -> str -> str -> str -> W -> outcome paapi.AmazonAPI * W;
  (** [api.get_items(asins)] *)
  get_items : paapi.AmazonAPI -> list str -> W -> outcome paapi.GetItemsResponse * W;
}.

(* ===================================================================== *)
(** * Effects *)
(* ===================================================================== *)

Module Eff.
Section World.
Context {W : Type}.

(** The world and the replies sent so far, oldest first. *)
Record st : Type := St { world : W; outbox : list telegram.reply }.

Definition M (A : Type) : Type := st -> outcome A * st.

Definition ret {A} (a : A) : M A := fun s => (Returns a, s).

Definition bind {A B} (m : M A) (f : A -> M B) : M B := fun s =>
  match m s with
  | (Returns a, s') => f a s'
  | (Raises e, s') => (Raises e, s')
  end.

Definition lift {A} (o : outcome A) : M A := fun s => (o, s).

(** A call to the outside world. *)
Definition call {A} (f : W -> A * W) : M A := fun s =>
  let '(a, w) := f (world s) in (Returns a, St w (outbox s)).

Definition call_raising {A} (f : W -> outcome A * W) : M A := fun s =>
  let '(o, w) := f (world s) in (o, St w (outbox s)).

(** [await message.reply_...(...)] *)
Definition send (r : telegram.reply) : M unit := fun s =>
  (Returns tt, St (world s) (outbox s ++ [r])).

(** [try: body / except Exception as e: handler] *)
Definition try_ {A} (body : M A) (handler : exn -> M A) : M A := fun s =>
  match body s with
  | (Returns a, s') => (Returns a, s')
  | (Raises e, s') => handler e s'
  end.

End World.
Arguments st : clear implicits.
Arguments M : clear implicits.
End Eff.

Declare Scope eff_scope.
Delimit Scope eff_scope with eff.
Notation "x <- m ;; k" := (Eff.bind m (fun x => k))
  (at level 100, m at next level, right associativity) : eff_scope.
Notation "m ;;; k" := (Eff.bind m (fun _ => k))
  (at level 100, right associativity) : eff_scope.

(* ===================================================================== *)
(** * The vendor handlers *)
(* ===================================================================== *)

(** The dictionary a handler answers with. It always has its five
    keys, so it is a record; as a non-empty [dict] it is truthy. *)
Record ProductInfo : Type := {
  title : value;
  image_url : value;
  price : value;
  old_price : value;
  description : value;
}.

(** What the dispatcher asks of a handler. *)
Module Handler.
Record t (W : Type) : Type := {
  can_handle : str -> bool;
  get_product_info : str -> Eff.M W (option ProductInfo);
  create_affiliate_link : str -> str;
}.
Arguments can_handle {W} _ _.
Arguments get_product_info {W} _ _.
Arguments create_affiliate_link {W} _ _.
End Handler.

Module AliexpressAPIHandler.

Record t : Type := {
  config : ConfigurationManager;
  api_key : str;
  secret : str;
}.

Definition BASE_URL : str :=
  py "https://api.alibaba.com/openapi/param2/2/portals.open/api.getPromotionProductDetail/".

Definition __init__ (config : ConfigurationManager) : t := {|
  config := config;
  api_key := aliexpress_app_key config;
  secret := aliexpress_app_secret config;
|}.

Definition _generate_signature
    (self : t) (api_path : str) (params : gmap str str) : outcome str :=
  let sorted_params := flat_map (fun kv => kv.1 ++ kv.2) (sorted (map_to_list params)) in
  let sign_string := secret self ++ api_path ++ sorted_params ++ secret self in
  MD5.hexdigest <$> UTF8.encode sign_string.

Section WithWorld.
Context `{UnicodeData} {W : Type} `{Outside W}.
Local Open Scope eff_scope.

(** [/item/(\d+)\.html] at the head of [s]: group 1. *)
Definition product_id_at (s : str) : option str :=
  Re.lit (py "/item/") s (fun s1 =>
  Re.plus Re.decimal s1 (fun s2 =>
  Re.lit (py ".html") s2 (fun _ =>
  Some (Re.between s1 s2)))).

Definition extract_product_id (url : str) : option str :=
  Re.search product_id_at url.

Definition create_affiliate_link (self : t) (url : str) : str :=
  url ++ py "?aff_id=" ++ aliexpress_aff_id (config self).

Definition can_handle (self : t) (url : str) : bool :=
  Text.contains (py "aliexpress.com") url.

Definition get_product_info (self : t) (url : str) : Eff.M W (option ProductInfo) :=
  match extract_product_id url with
  | None | Some [] => Eff.ret None
  | Some product_id =>
      let api_path := py "/openapi/param2/2/portals.open/api.getPromotionProductDetail/" in
      timestamp <- Eff.call time_ms ;;
      let params : gmap str str :=
        <[py "timestamp" := Text.str_of_int timestamp]>
          (<[py "productId" := product_id]>
             (<[py "app_key" := api_key self]> ∅)) in
      sign <- Eff.lift (_generate_signature self api_path params) ;;
      let params := <[py "sign" := sign]> params in
      Eff.try_
        (response <- Eff.call_raising (requests_get BASE_URL (Some params) (Some 10%Z)) ;;
         Eff.lift (requests.raise_for_status response) ;;;
         data <- Eff.lift (requests.json response) ;;
         has_result <- Eff.lift (requests.contains (py "result") data) ;;
         if negb has_result then Eff.ret None
         else
           result <- Eff.lift (requests.getitem data (py "result")) ;;
           title <- Eff.lift (requests.get result (py "productTitle")) ;;
           image_url <- Eff.lift (requests.get result (py "productMainImageUrl")) ;;
           price <- Eff.lift (requests.get result (py "salePrice")) ;;
           old_price <- Eff.lift (requests.get result (py "originalPrice")) ;;
           description <- Eff.lift (requests.get result (py "productDescription")) ;;
           Eff.ret (Some {|
             title := title;
             image_url := image_url;
             price := price;
             old_price := old_price;
             description := or_ description (VStr (py "Producto en AliExpress"));
           |}))
        (fun e => (* logger.exception(...) *) Eff.ret None)
  end.

Definition handler (self : t) : Handler.t W := {|
  Handler.can_handle := can_handle self;
  Handler.get_product_info := get_product_info self;
  Handler.create_affiliate_link := create_affiliate_link self;
|}.

End WithWorld.
End AliexpressAPIHandler.

Module AmazonAPIHandler.

Record t : Type := {
  config : ConfigurationManager;
  api : paapi.AmazonAPI;
}.

Definition can_handle (self : t) (url : str) : bool :=
  Text.contains (py "amazon.") url.

(** [[A-Z0-9]] and [[/?]] *)
Definition upper_or_digit (c : char) : bool := Re.ascii_upper c || Re.ascii_digit c.
Definition slash_or_question (c : char) : bool := (c =? 47)%N || (c =? 63)%N.

(** [/([A-Z0-9]{10})(?:[/?]|$)] at the head of [s]: group 1. *)
Definition asin_at (s : str) : option str :=
  Re.lit (py "/") s (fun s1 =>
  Re.rep 10 upper_or_digit s1 (fun s2 =>
  Re.alt (Re.chr slash_or_question) Re.eol s2 (fun _ =>
  Some (Re.between s1 s2)))).

Definition extract_asin (url : str) : option str := Re.search asin_at url.

Definition create_affiliate_link (self : t) (url : str) : str :=
  match extract_asin url with
  | Some ((_ :: _) as asin) =>
      py "https://www.amazon." ++ amazon_country (config self)
         ++ py "/dp/" ++ asin ++ py "?tag=" ++ amazon_affiliate_tag (config self)
  | Some [] | None => url
  end.

Section WithWorld.
Context {W : Type} `{Outside W}.
Local Open Scope eff_scope.

(** The constructor builds the client of the library: a call to the
    outside, which may raise. *)
Definition __init__ (config : ConfigurationManager) : Eff.M W t :=
  api <- Eff.call_raising
           (AmazonAPI (amazon_access_key config) (amazon_secret_key config)
                      (amazon_affiliate_tag config) (amazon_country config)) ;;
  Eff.ret {| config := config; api := api |}.

Definition get_product_info (self : t) (url : str) : Eff.M W (option ProductInfo) :=
  Eff.try_
    (match extract_asin url with
     | None | Some [] => Eff.ret None
     | Some asin =>
         result <- Eff.call_raising (get_items (api self) [asin]) ;;
         item <- Eff.lift (items_result ← attr (paapi.items_result result);
                           first (paapi.items items_result)) ;;
         title <- Eff.lift (item_info ← attr (paapi.item_info item);
                            title ← attr (paapi.title item_info);
                            Returns (paapi.display_value title)) ;;
         image_url <- Eff.lift (images ← attr (paapi.images item);
                                primary ← attr (paapi.primary images);
                                large ← attr (paapi.large primary);
                                Returns (paapi.url large)) ;;
         let listing_price :=
           offers ← attr (paapi.offers item);
           listing ← first (paapi.listings offers);
           attr (paapi.price listing) in
         price <- Eff.lift (paapi.display_amount <$> listing_price) ;;
         old_price <- Eff.lift (basis ← paapi.savings_basis <$> listing_price;
                                if truthy basis
                                then paapi.savings_basis <$> listing_price
                                else Returns VNone) ;;
         description <- Eff.lift (item_info ← attr (paapi.item_info item);
                                  match paapi.features item_info with
                                  | Some features => first (paapi.display_values features)
                                  | None => Returns (VStr (py "Producto de Amazon"))
                                  end) ;;
         Eff.ret (Some {|
           title := title;
           image_url := image_url;
           price := price;
           old_price := old_price;
           description := description;
         |})
     end)
    (fun e => (* logger.exception(...) *) Eff.ret None).

Definition handler (self : t) : Handler.t W := {|
  Handler.can_handle := can_handle self;
  Handler.get_product_info := get_product_info self;
  Handler.create_affiliate_link := create_affiliate_link self;
|}.

End WithWorld.
End AmazonAPIHandler.

(* ===================================================================== *)
(** * Utilities *)
(* ===================================================================== *)

(** [user_id in excluded_users or (username and username in excluded_users)]:
    the value of the expression, which the caller tests for truth. *)
Definition is_user_excluded (config_manager : ConfigurationManager)
    (user : telegram.User) : value :=
  let user_id := telegram.id user in
  let excluded_users := excluded_users config_manager in
  or_ (VBool (bool_decide (inl user_id ∈ excluded_users)))
      (match telegram.username user with
       | None => VNone
       | Some [] => VStr []
       | Some username => VBool (bool_decide (inr username ∈ excluded_users))
       end).

Section Pipeline.
Context `{UnicodeData} {W : Type} `{Outside W}.
Local Open Scope eff_scope.

Definition shorten_url (url : str) : Eff.M W str :=
  Eff.try_
    (response <- Eff.call_raising
                   (requests_get (py "https://tinyurl.com/api-create.php?url=" ++ url)
                                 None None) ;;
     Eff.ret (if (requests.status_code response =? 200)%Z
              then requests.text response else url))
    (fun _ => Eff.ret url).

Definition prepare_message (message : option telegram.Message) : str :=
  match message with
  | Some m => match telegram.text m with
              | Some ((_ :: _) as text) => text
              | Some [] | None => []
              end
  | None => []
  end.

(** [[\w./?=&%-]] *)
Definition url_char (c : char) : bool :=
  Re.word c || (c =? 46)%N || (c =? 47)%N || (c =? 63)%N || (c =? 61)%N
            || (c =? 38)%N || (c =? 37)%N || (c =? 45)%N.

(** [https?://[\w./?=&%-]+] at the head of [s]: what the match leaves. *)
Definition url_at (s : str) : option str :=
  Re.lit (py "http") s (fun s1 =>
  Re.opt (Re.lit (py "s")) s1 (fun s2 =>
  Re.lit (py "://") s2 (fun s3 =>
  Re.plus url_char s3 (fun rest => Some rest)))).

Definition extract_urls (text : str) : list str := Re.findall url_at 0 text.

(** The reply for a product that was found. *)
Definition caption_of (product : ProductInfo) (short_link : str) : str :=
  let caption := py "<b>" ++ format (title product) ++ py "</b>" ++ [10%N] in
  let caption := caption ++ py "💸 Precio: " ++ format (price product) ++ [10%N] in
  let caption :=
    if truthy (old_price product)
    then caption ++ py "💰 Antes: " ++ format (old_price product) ++ [10%N]
    else caption in
  let caption :=
    if truthy (description product)
    then caption ++ py "📝 " ++ format (description product) ++ [10%N]
    else caption in
  caption ++ py "🔗 " ++ short_link.

(** The loop [for handler in handlers] for one URL: it ends at the
    [break], or when the handlers are exhausted. *)
Fixpoint for_handlers (handlers : list (Handler.t W)) (url : str) : Eff.M W unit :=
  match handlers with
  | [] => Eff.ret tt
  | handler :: handlers' =>
      if Handler.can_handle handler url then
        product <- Handler.get_product_info handler url ;;
        match product with
        | Some product =>
            let affiliate_link := Handler.create_affiliate_link handler url in
            short_link <- shorten_url affiliate_link ;;
            let caption := caption_of product short_link in
            (if truthy (image_url product)
             then Eff.send (telegram.reply_photo (image_url product) caption (Some (py "HTML")))
             else Eff.send (telegram.reply_text caption (Some (py "HTML"))))
            (* break *)
        | None =>
            Eff.send (telegram.reply_text (py "🔗 " ++ url) None) ;;;
            for_handlers handlers' url
        end
      else for_handlers handlers' url
  end.

Fixpoint for_urls (handlers : list (Handler.t W)) (urls : list str) : Eff.M W unit :=
  match urls with
  | [] => Eff.ret tt
  | url :: urls' => for_handlers handlers url ;;; for_urls handlers urls'
  end.

(** The two handlers are built for every message, before the first URL
    is looked at and outside every [try]. *)
Definition process_link_handlers (config_manager : ConfigurationManager)
    (message : option telegram.Message) : Eff.M W unit :=
  let text := prepare_message message in
  let urls := extract_urls text in
  let aliexpress := AliexpressAPIHandler.__init__ config_manager in
  amazon <- AmazonAPIHandler.__init__ config_manager ;;
  let handlers :=
    [ AliexpressAPIHandler.handler aliexpress; AmazonAPIHandler.handler amazon ] in
  for_urls handlers urls.

Definition modify_link (config_manager : ConfigurationManager)
    (update : telegram.Update) : Eff.M W unit :=
  match telegram.message update with
  | None => Eff.ret tt
  | Some message =>
      match telegram.text message with
      | None | Some [] => Eff.ret tt
      | Some (_ :: _) =>
          match telegram.effective_user update with
          | None => Eff.ret tt
          | Some effective_user =>
              if truthy (is_user_excluded config_manager effective_user)
              then Eff.ret tt
              else process_link_handlers config_manager (Some message)
          end
      end
  end.

End Pipeline.

(* ===================================================================== *)
(** * Vocabulary of the statements *)
(* ===================================================================== *)

(** Parameters listed in strictly increasing order of key. *)
Definition in_key_order (items : list (str * str)) : Prop :=
  StronglySorted (fun x y => Text.lt x.1 y.1) items.

(** A key immediately followed by its value. *)
Definition key_value (kv : str * str) : str := kv.1 ++ kv.2.

(** A character of a lower-case hexadecimal numeral. *)
Definition hex_char (c : char) : bool :=
  Re.ascii_digit c || ((97 <=? c)%N && (c <=? 102)%N).

(** The URL has the path shape [/item/<digits>.html], with the digits
    [d], after [n] characters. *)
Definition item_path_at `{UnicodeData} (url : str) (n : nat) (d : str) : Prop :=
  exists pre post,
    url = pre ++ py "/item/" ++ d ++ py ".html" ++ post
    /\ length pre = n /\ d <> [] /\ forallb Re.decimal d = true.

(** Ten characters of [A-Z0-9]. *)
Definition asin_shape (a : str) : Prop :=
  length a = 10 /\ forallb AmazonAPIHandler.upper_or_digit a = true.

(** What bounds a path segment on the right: the end of the string, a
    ['/'] or a ['?']. *)
Definition segment_end (post : str) : Prop :=
  post = [] \/
  exists c post', post = c :: post' /\ AmazonAPIHandler.slash_or_question c = true.

(** The URL has the segment [/a], of the shape of an ASIN and bounded on
    the right, after [n] characters. *)
Definition asin_segment_at (url : str) (n : nat) (a : str) : Prop :=
  exists pre post,
    url = pre ++ py "/" ++ a ++ post
    /\ length pre = n /\ asin_shape a /\ segment_end post.

(** The text holds no line feed: so it is with every URL that
    [extract_urls] finds. *)
Definition no_line_feed (s : str) : Prop :=
  forallb (fun c => negb (c =? 10)%N) s = true.

(** The pattern [m] matches the text [s] at position [n], with result [r]. *)
Definition match_at {R} (m : str -> option R) (s : str) (n : nat) (r : R) : Prop :=
  exists pre s', s = pre ++ s' /\ length pre = n /\ m s' = Some r.

(** The computation sends nothing. *)
Definition keeps_outbox {W A} (m : Eff.M W A) : Prop :=
  forall st, Eff.outbox (m st).2 = Eff.outbox st.

(** A handler that sends nothing itself: the replies are the
    dispatcher's. *)
Definition quiet {W} (h : Handler.t W) : Prop :=
  forall url, keeps_outbox (Handler.get_product_info h url).

Definition cannot_handle {W} (url : str) (h : Handler.t W) : Prop :=
  Handler.can_handle h url = false.

(** The arguments the Amazon client is built with. *)
Definition new_client {W : Type} `{Outside W} (config_manager : ConfigurationManager)
    : W -> outcome paapi.AmazonAPI * W :=
  AmazonAPI (amazon_access_key config_manager) (amazon_secret_key config_manager)
            (amazon_affiliate_tag config_manager) (amazon_country config_manager).

(** The handlers of a message, in their order, once the Amazon client
    [api] is built. *)
Definition handlers_of `{UnicodeData} {W : Type} `{Outside W}
    (config_manager : ConfigurationManager) (api : paapi.AmazonAPI) : list (Handler.t W) :=
  [ AliexpressAPIHandler.handler (AliexpressAPIHandler.__init__ config_manager);
    AmazonAPIHandler.handler
      {| AmazonAPIHandler.config := config_manager; AmazonAPIHandler.api := api |} ].

(** The reply that echoes a URL. *)
Definition fallback_reply (url : str) : telegram.reply :=
  telegram.reply_text (py "🔗 " ++ url) None.

(** The line of the caption that shows the description. *)
Definition description_line (product : ProductInfo) : str :=
  py "📝 " ++ format (description product) ++ [10%N].

#[global] Instance text_lt_dec a b : Decision (Text.lt a b).
Proof. unfold Text.lt. apply _. Defined.

#[global] Instance in_key_order_dec items : Decision (in_key_order items).
Proof. unfold in_key_order. apply _. Defined.

(** The text [needle] occurs in the text [hay]: Python's
    [needle in hay]. *)
Definition occurs_in (needle hay : str) : Prop :=
  exists pre post, hay = pre ++ needle ++ post.

(** A text of the shape [https?://[\w./?=&%-]+]. *)
Definition url_shape `{UnicodeData} (url : str) : Prop :=
  exists scheme body,
    url = scheme ++ body
    /\ (scheme = py "http://" \/ scheme = py "https://")
    /\ body <> [] /\ forallb url_char body = true.

(** The text that [get_product_info] has signed: the secret, the path
    of the API, the three parameters by key, and the secret again. *)
Definition signed_text (self : AliexpressAPIHandler.t) (product_id timestamp : str) : str :=
  AliexpressAPIHandler.secret self
    ++ py "/openapi/param2/2/portals.open/api.getPromotionProductDetail/"
    ++ py "app_key" ++ AliexpressAPIHandler.api_key self
    ++ py "productId" ++ product_id
    ++ py "timestamp" ++ timestamp
    ++ AliexpressAPIHandler.secret self.

(** The parameters of the request, before and after the signature is
    put among them. *)
Definition unsigned_params (self : AliexpressAPIHandler.t) (product_id timestamp : str)
    : gmap str str :=
  <[py "timestamp" := timestamp]>
    (<[py "productId" := product_id]>
       (<[py "app_key" := AliexpressAPIHandler.api_key self]> ∅)).

Definition signed_params (self : AliexpressAPIHandler.t) (product_id timestamp : str)
    : gmap str str :=
  <[py "sign" := MD5.hexdigest (UTF8.bytes (signed_text self product_id timestamp))]>
    (unsigned_params self product_id timestamp).

(** The text holds no ['/']. *)
Definition no_slash (s : str) : Prop :=
  forallb (fun c => negb (c =? 47)%N) s = true.

(** The reply for a product that was found: a photo when the product
    has an image, a text otherwise. *)
Definition product_reply (product : ProductInfo) (short_link : str) : telegram.reply :=
  if truthy (image_url product)
  then telegram.reply_photo (image_url product) (caption_of product short_link)
         (Some (py "HTML"))
  else telegram.reply_text (caption_of product short_link) (Some (py "HTML")).

(** The computation returns, from every state. *)
Definition never_raises {W A} (m : Eff.M W A) : Prop :=
  forall st, exists a st', m st = (Returns a, st').

#[global] Instance cannot_handle_dec {W} url (h : Handler.t W) :
  Decision (cannot_handle url h).
Proof. unfold cannot_handle. apply _. Defined.

(* ===================================================================== *)
(** * Sample inputs *)
(* ===================================================================== *)

Module Sample.

Definition config : ConfigurationManager := {|
  aliexpress_app_key := py "k1";
  aliexpress_app_secret := py "s3cr3t";
  aliexpress_aff_id := py "aff42";
  amazon_access_key := py "AK";
  amazon_secret_key := py "SK";
  amazon_affiliate_tag := py "tag-21";
  amazon_country := py "es";
  excluded_users := {[ inl 7%Z; inr (py "spammer") ]};
|}.

Definition aliexpress : AliexpressAPIHandler.t := AliexpressAPIHandler.__init__ config.

(** The Amazon client of [config], and the handler that holds it. *)
Definition client : paapi.AmazonAPI := {|
  paapi.access_key := py "AK";
  paapi.secret_key := py "SK";
  paapi.partner_tag := py "tag-21";
  paapi.country := py "es";
|}.

Definition amazon : AmazonAPIHandler.t :=
  {| AmazonAPIHandler.config := config; AmazonAPIHandler.api := client |}.

(** The parameters of a product request, as [get_product_info]
    builds them, and the same listed by key. *)
Definition params : gmap str str :=
  <[py "timestamp" := py "1700000000000"]>
    (<[py "productId" := py "1005006123456"]>
       (<[py "app_key" := py "k1"]> ∅)).

Definition items : list (str * str) :=
  [ (py "app_key", py "k1");
    (py "productId", py "1005006123456");
    (py "timestamp", py "1700000000000") ].

Definition in_range (lo hi c : N) : bool := (lo <=? c)%N && (c <=? hi)%N.

(** The Unicode tables below U+0100: no decimal digit beyond ASCII, and
    the letters and numbers of Latin-1. The sample texts hold no
    character beyond. *)
Definition latin1 : UnicodeData := {|
  nonascii_decimal := fun _ => false;
  nonascii_alnum := fun c =>
    (c =? 0xAA)%N || in_range 0xB2 0xB3 c || (c =? 0xB5)%N
    || in_range 0xB9 0xBA c || in_range 0xBC 0xBE c
    || in_range 0xC0 0xD6 c || in_range 0xD8 0xF6 c
    || in_range 0xF8 0xFF c;
|}.

(** A world that counts the calls made to it, and answers each kind of
    call always the same: the product API (a [requests.get] with
    parameters), the shortener (one without), and Amazon. Building the
    Amazon client succeeds in it and is no call: the state is left as
    it was. *)
Definition outside
    (product_api shortener : outcome requests.Response)
    (amazon_api : outcome paapi.GetItemsResponse) : Outside nat := {|
  time_ms := fun w => (1700000000000%Z, S w);
  requests_get := fun url params timeout w =>
    (match params with Some _ => product_api | None => shortener end, S w);
  AmazonAPI := fun access_key secret_key partner_tag country w =>
    (Returns {| paapi.access_key := access_key;
                paapi.secret_key := secret_key;
                paapi.partner_tag := partner_tag;
                paapi.country := country |}, w);
  get_items := fun api asins w => (amazon_api, S w);
|}.

(** The same world with a library whose constructor does not take
    these arguments: building the client raises [TypeError]. *)
Definition no_client (product_api shortener : outcome requests.Response) : Outside nat := {|
  time_ms := fun w => (1700000000000%Z, S w);
  requests_get := fun url params timeout w =>
    (match params with Some _ => product_api | None => shortener end, S w);
  AmazonAPI := fun access_key secret_key partner_tag country w => (Raises TypeError, w);
  get_items := fun api asins w => (Raises TypeError, S w);
|}.

Definition no_json : outcome requests.json_data := Raises (OtherException "JSONDecodeError").

Definition unavailable : outcome requests.Response :=
  Returns {| requests.status_code := 503;
             requests.text := py "Service Unavailable";
             requests.json := no_json |}.

Definition shortened : outcome requests.Response :=
  Returns {| requests.status_code := 200;
             requests.text := py "https://tinyurl.com/2abc";
             requests.json := no_json |}.

(** A product of AliExpress without description. *)
Definition gadget : outcome requests.Response :=
  Returns {| requests.status_code := 200;
             requests.text := [];
             requests.json :=
               Returns (requests.DataDict
                 {[ py "result" :=
                      requests.ResultDict
                        (<[py "productTitle" := VStr (py "Gadget")]>
                           {[ py "salePrice" := VStr (py "3,50") ]}) ]}) |}.

(** An item of Amazon, with the given features. *)
Definition widget (features : option paapi.Features) : outcome paapi.GetItemsResponse :=
  let price := {| paapi.display_amount := VStr (py "$9.99");
                  paapi.savings_basis := VNone |} in
  let item := {|
    paapi.item_info := Some {|
      paapi.title := Some {| paapi.display_value := VStr (py "Widget") |};
      paapi.features := features |};
    paapi.images := Some {| paapi.primary :=
      Some {| paapi.large := Some {| paapi.url := VNone |} |} |};
    paapi.offers := Some {| paapi.listings := Some [ {| paapi.price := Some price |} ] |};
  |} in
  Returns {| paapi.items_result := Some {| paapi.items := Some [item] |} |}.

Definition message (text : string) : telegram.Message :=
  {| telegram.text := Some (py text) |}.

(** A table that knows the Arabic-Indic digits (U+0660 to U+0669) and
    nothing else beyond ASCII. *)
Definition with_arabic_digits : UnicodeData := {|
  nonascii_decimal := in_range 0x660 0x669;
  nonascii_alnum := in_range 0x660 0x669;
|}.

(** A product of AliExpress of which the API says nothing. *)
Definition bare : outcome requests.Response :=
  Returns {| requests.status_code := 200;
             requests.text := [];
             requests.json :=
               Returns (requests.DataDict {[ py "result" := requests.ResultDict ∅ ]}) |}.

(** The fields of [gadget]. *)
Definition gadget_fields : gmap str value :=
  <[py "productTitle" := VStr (py "Gadget")]> {[ py "salePrice" := VStr (py "3,50") ]}.

Definition gadget_response : requests.Response :=
  {| requests.status_code := 200;
     requests.text := [];
     requests.json :=
       Returns (requests.DataDict {[ py "result" := requests.ResultDict gadget_fields ]}) |}.

(** A configuration whose AliExpress secret holds a lone surrogate. *)
Definition surrogate_config : ConfigurationManager := {|
  aliexpress_app_key := py "k1";
  aliexpress_app_secret := [0xD83D%N];
  aliexpress_aff_id := py "aff42";
  amazon_access_key := py "AK";
  amazon_secret_key := py "SK";
  amazon_affiliate_tag := py "tag-21";
  amazon_country := py "es";
  excluded_users := ∅;
|}.

(** The product that [widget None] describes. *)
Definition widget_product : ProductInfo := {|
  title := VStr (py "Widget");
  image_url := VNone;
  price := VStr (py "$9.99");
  old_price := VNone;
  description := VStr (py "Producto de Amazon");
|}.

End Sample.

(* ===================================================================== *)
(** * Theorems *)
(* ===================================================================== *)

(* --------------------------------------------------------------------- *)
(** ** The library functions on samples *)
(* --------------------------------------------------------------------- *)

(** The test suite of RFC 1321, and a text that is not ASCII. *)
Example md5_test_suite :
  map (fun s => MD5.hexdigest <$> UTF8.encode (py s))
      [ ""; "a"; "abc"; "message digest"; "abcdefghijklmnopqrstuvwxyz";
        "ABCDEFGHIJKLMNOPQRSTUVWXYZabcdefghijklmnopqrstuvwxyz0123456789";
        "12345678901234567890123456789012345678901234567890123456789012345678901234567890";
        "ñ🔗" ]%string
  = map (fun s => Returns (py s))
      [ "d41d8cd98f00b204e9800998ecf8427e"; "0cc175b9c0f1b6a831c399e269772661";
        "900150983cd24fb0d6963f7d28e17f72"; "f96b697d7cb7938d525a2f31aaf161d0";
        "c3fcd3d76192e4007dfb496cca67e13b"; "d174ab98d277d9f5a5611c2c9f419d9f";
        "57edf4a22be3c955ac49da2e2107b67a"; "d9ef63056a0d60719e531f804d844eb5" ]%string.
Proof. vm_compute. reflexivity. Qed.

Example utf8_bytes : UTF8.bytes (py "ñ🔗") = [195; 177; 240; 159; 148; 151]%Z.
Proof. vm_compute. reflexivity. Qed.

Example lone_surrogate_raises : UTF8.encode [0xD83D%N] = Raises UnicodeEncodeError.
Proof. reflexivity. Qed.

Example str_of_int_samples :
  map Text.str_of_int [0; 7; 10; 1700000000000; -5]%Z
  = [py "0"; py "7"; py "10"; py "1700000000000"; py "-5"].
Proof. vm_compute. reflexivity. Qed.

(** [re.findall]: in order, without overlap, the longest run of each. *)
Example findall_samples :
  map (@extract_urls Sample.latin1)
      [ py "check this https://www.amazon.com/dp/B000123ABC/ref=x and http://a.b/c?d=e&f=%20-g, end https://x";
        py "https://httpshttp://a https:// http://?";
        py "xhttps://a_b.c/d!e http:/x https://é.com/item";
        [] ]
  = [ [ py "https://www.amazon.com/dp/B000123ABC/ref=x"; py "http://a.b/c?d=e&f=%20-g";
        py "https://x" ];
      [ py "https://httpshttp"; py "http://?" ];
      [ py "https://a_b.c/d"; py "https://é.com/item" ];
      [] ].
Proof. vm_compute. reflexivity. Qed.

(** [re.search] with [$]: a line feed that ends the text is allowed
    after the match, two are not; the leftmost match wins. *)
Example asin_samples :
  map AmazonAPIHandler.extract_asin
      [ py "https://www.amazon.es/dp/B08N5WRWNW";
        py "https://www.amazon.es/dp/B08N5WRWNW?x=1";
        py "https://www.amazon.es/dp/B08N5WRWNW" ++ [10%N];
        py "https://www.amazon.es/dp/B08N5WRWNW" ++ [10%N; 10%N];
        py "https://www.amazon.es/dp/B08N5WRWNWX/ABCDEFGHIJ/KLMNOPQRST";
        py "https://www.amazon.es/dp/b08n5wrwnw/";
        py "/ABCDEFGHIJ#" ]
  = [ Some (py "B08N5WRWNW"); Some (py "B08N5WRWNW"); Some (py "B08N5WRWNW"); None;
      Some (py "ABCDEFGHIJ"); None; None ].
Proof. vm_compute. reflexivity. Qed.

(** [\d+] is greedy and [\d] is a Unicode class: with the Arabic-Indic
    digits in the table, they are digits of a product id. *)
Example product_id_samples :
  map (@AliexpressAPIHandler.extract_product_id Sample.with_arabic_digits)
      [ py "/item/.html"; py "/item/12.htm/item/34.html"; py "/item/12/item/56.html";
        py "/item/12.HTML"; py "/item/1a.html/item/٣٤.html" ]
  = [ None; Some (py "34"); Some (py "56"); None; Some (py "٣٤") ].
Proof. vm_compute. reflexivity. Qed.

(* --------------------------------------------------------------------- *)
(** ** String order *)
(* --------------------------------------------------------------------- *)

Module TextFacts.

Lemma compare_refl a : Text.compare a a = Eq.
Proof. induction a as [|x a IH]; simpl; [done|]. by rewrite N.compare_refl. Qed.

Lemma compare_eq a b : Text.compare a b = Eq -> a = b.
Proof.
  revert b. induction a as [|x a IH]; intros [|y b]; simpl; try done.
  destruct (N.compare_spec x y) as [->| |]; try done.
  intros E. by rewrite (IH _ E).
Qed.

Lemma compare_antisym a b : Text.compare b a = CompOpp (Text.compare a b).
Proof.
  revert b. induction a as [|x a IH]; intros [|y b]; simpl; try done.
  rewrite (N.compare_antisym x y).
  destruct (N.compare x y); simpl; auto.
Qed.

Lemma lt_trans a b c : Text.lt a b -> Text.lt b c -> Text.lt a c.
Proof.
  unfold Text.lt. revert b c.
  induction a as [|x a IH]; intros [|y b] [|z c]; simpl; try done.
  destruct (N.compare_spec x y) as [->| |]; try done.
  - destruct (N.compare_spec y z); try done. apply IH.
  - destruct (N.compare_spec y z) as [<-| |]; try done.
    + intros _ _. by apply N.compare_lt_iff in H as ->.
    + intros _ _. assert (x < z)%N as ->%N.compare_lt_iff by lia. done.
Qed.

Lemma lt_irrefl a : ~ Text.lt a a.
Proof. unfold Text.lt. by rewrite compare_refl. Qed.

Lemma gt_lt a b : Text.compare a b = Gt -> Text.lt b a.
Proof. unfold Text.lt. rewrite (compare_antisym a b). by intros ->. Qed.

Lemma le_trans a b c :
  Text.compare a b <> Gt -> Text.compare b c <> Gt -> Text.compare a c <> Gt.
Proof.
  intros Hab Hbc Hac. apply gt_lt in Hac.
  destruct (Text.compare a b) eqn:E1; [|clear Hab|done].
  - apply compare_eq in E1 as ->. unfold Text.lt in Hac.
    rewrite compare_antisym in Hac. by destruct (Text.compare b c).
  - destruct (Text.compare b c) eqn:E2; [| |done].
    + apply compare_eq in E2 as ->. exact (lt_irrefl _ (lt_trans _ _ _ Hac E1)).
    + exact (lt_irrefl _ (lt_trans _ _ _ (lt_trans _ _ _ Hac E1) E2)).
Qed.

End TextFacts.

#[global] Instance item_le_total : Total item_le.
Proof.
  intros [k1 v1] [k2 v2]. unfold item_le. simpl.
  rewrite (TextFacts.compare_antisym k1 k2), (TextFacts.compare_antisym v1 v2).
  destruct (Text.compare k1 k2); simpl; auto.
  destruct (Text.compare v1 v2); simpl; auto; left; discriminate.
Qed.

#[global] Instance item_le_trans : Transitive item_le.
Proof.
  intros [k1 v1] [k2 v2] [k3 v3]. unfold item_le. simpl.
  destruct (Text.compare k1 k2) eqn:E12; try done.
  - apply TextFacts.compare_eq in E12 as ->.
    destruct (Text.compare k2 k3); try done. apply TextFacts.le_trans.
  - intros _. destruct (Text.compare k2 k3) eqn:E23; try done.
    + apply TextFacts.compare_eq in E23 as ->. by rewrite E12.
    + intros _. by rewrite (TextFacts.lt_trans _ _ _ E12 E23).
Qed.

#[global] Instance item_le_antisym : AntiSymm (=) item_le.
Proof.
  intros [k1 v1] [k2 v2]. unfold item_le. simpl.
  rewrite (TextFacts.compare_antisym k1 k2), (TextFacts.compare_antisym v1 v2).
  destruct (Text.compare k1 k2) eqn:Ek; simpl; try done.
  apply TextFacts.compare_eq in Ek as ->.
  destruct (Text.compare v1 v2) eqn:Ev; simpl; try done.
  by apply TextFacts.compare_eq in Ev as ->.
Qed.

(* --------------------------------------------------------------------- *)
(** ** The request signature *)
(* --------------------------------------------------------------------- *)

Lemma le_bytes_length n x : length (MD5.le_bytes n x) = n.
Proof. unfold MD5.le_bytes. by rewrite length_map, length_seq. Qed.

Lemma le_bytes_range n x : Forall (fun b => 0 <= b < 256)%Z (MD5.le_bytes n x).
Proof.
  unfold MD5.le_bytes. apply Forall_map, Forall_forall. intros i _. simpl.
  change 255%Z with (Z.ones 8). rewrite Z.land_ones by lia.
  apply Z.mod_pos_bound. lia.
Qed.

Lemma digest_length msg : length (MD5.digest msg) = 16.
Proof.
  unfold MD5.digest. destruct (MD5.blocks _ _ _).
  by rewrite !length_app, !le_bytes_length.
Qed.

Lemma digest_range msg : Forall (fun b => 0 <= b < 256)%Z (MD5.digest msg).
Proof.
  unfold MD5.digest. destruct (MD5.blocks _ _ _).
  rewrite !Forall_app. auto using le_bytes_range.
Qed.

Lemma hex_digit_hex n : (0 <= n < 16)%Z -> hex_char (MD5.hex_digit n) = true.
Proof.
  intros Hn. unfold hex_char, MD5.hex_digit, Re.ascii_digit.
  destruct (Z.ltb_spec n 10).
  - apply orb_true_iff. left. apply andb_true_iff. split; apply N.leb_le; lia.
  - apply orb_true_iff. right. apply andb_true_iff. split; apply N.leb_le; lia.
Qed.

Lemma hexdigest_length msg : length (MD5.hexdigest msg) = 32.
Proof.
  unfold MD5.hexdigest. pose proof (digest_length msg) as Hl.
  induction (MD5.digest msg) as [|b l IH] in Hl |- *.
  - done.
  - assert (forall (l : list Z) k, length l = k ->
              length (flat_map MD5.hex_of_byte l) = 2 * k) as Hgen.
    { clear. induction l as [|b l IH]; intros k <-; simpl; [done|].
      rewrite (IH _ eq_refl). lia. }
    by rewrite (Hgen _ _ Hl).
Qed.

Lemma hexdigest_hex msg : forallb hex_char (MD5.hexdigest msg) = true.
Proof.
  unfold MD5.hexdigest. pose proof (digest_range msg) as Hr.
  induction Hr as [|b l Hb _ IH]; simpl; [done|].
  rewrite !hex_digit_hex, IH; [done | |].
  - apply Z.mod_pos_bound. lia.
  - split; [apply Z.div_pos; lia | apply Z.div_lt_upper_bound; lia].
Qed.

Lemma in_key_order_item_le items :
  in_key_order items -> StronglySorted item_le items.
Proof.
  unfold in_key_order. induction 1 as [|x l _ IH Hx]; constructor; [done|].
  eapply Forall_impl; [exact Hx|]. intros y Hy. unfold item_le.
  unfold Text.lt in Hy. simpl in Hy. by rewrite Hy.
Qed.

Lemma sorted_unique params items :
  items ≡ₚ map_to_list params -> in_key_order items ->
  sorted (map_to_list params) = items.
Proof.
  intros Hp Hs. apply (StronglySorted_unique item_le).
  - apply StronglySorted_merge_sort; apply _.
  - by apply in_key_order_item_le.
  - unfold sorted. by rewrite merge_sort_Permutation, Hp.
Qed.

(** The items of a dictionary, sorted, are in strict key order: the
    keys of a dictionary are distinct. *)
Lemma sorted_in_key_order (params : gmap str str) :
  in_key_order (sorted (map_to_list params)).
Proof.
  assert (Hnd : NoDup (sorted (map_to_list params)).*1).
  { unfold sorted. rewrite merge_sort_Permutation. apply NoDup_fst_map_to_list. }
  assert (Hs : StronglySorted item_le (sorted (map_to_list params))).
  { apply StronglySorted_merge_sort; apply _. }
  unfold in_key_order.
  induction Hs as [|x l _ IH Hx]; constructor.
  - apply IH. by inversion Hnd.
  - simpl in Hnd. apply NoDup_cons in Hnd as [Hnotin _].
    apply Forall_forall. intros y Hy.
    rewrite Forall_forall in Hx. specialize (Hx y Hy).
    unfold item_le in Hx. unfold Text.lt.
    destruct (Text.compare x.1 y.1) eqn:E; try done.
    apply TextFacts.compare_eq in E. exfalso. apply Hnotin.
    rewrite E. apply list_elem_of_fmap. by exists y.
Qed.

(** C1. The signature is the MD5 digest, as 32 lower-case hexadecimal
    characters, of the UTF-8 form of
    [secret ++ api_path ++ k1 ++ v1 ++ ... ++ kn ++ vn ++ secret], the
    parameters being taken in increasing order of key; it is a value of
    these inputs alone, the same for whatever order the parameters were
    put into the mapping. The strings must be encodable text (no lone
    surrogate), else [encode] raises. *)
Theorem generate_signature_md5
    (self : AliexpressAPIHandler.t) (api_path : str) (params : gmap str str)
    (items : list (str * str)) :
  items ≡ₚ map_to_list params ->
  in_key_order items ->
  let sign_string :=
    AliexpressAPIHandler.secret self ++ api_path
      ++ flat_map key_value items ++ AliexpressAPIHandler.secret self in
  forallb UTF8.encodable sign_string = true ->
  AliexpressAPIHandler._generate_signature self api_path params
    = Returns (MD5.hexdigest (UTF8.bytes sign_string))
  /\ length (MD5.hexdigest (UTF8.bytes sign_string)) = 32
  /\ forallb hex_char (MD5.hexdigest (UTF8.bytes sign_string)) = true
  /\ (forall inserted : list (str * str),
        NoDup inserted.*1 -> inserted ≡ₚ items ->
        AliexpressAPIHandler._generate_signature self api_path (list_to_map inserted)
        = AliexpressAPIHandler._generate_signature self api_path params).
Proof.
  intros Hperm Hsorted sign_string Henc.
  split; [|split; [apply hexdigest_length|split; [apply hexdigest_hex|]]].
  - unfold AliexpressAPIHandler._generate_signature.
    rewrite (sorted_unique _ _ Hperm Hsorted).
    change (flat_map _ items) with (flat_map key_value items).
    fold sign_string. unfold UTF8.encode. by rewrite Henc.
  - intros inserted Hnd Hins. f_equal.
    apply map_to_list_inj. rewrite map_to_list_to_map by done.
    by rewrite Hins.
Qed.

Lemma generate_signature_md5_witness :
  AliexpressAPIHandler._generate_signature Sample.aliexpress (py "/api/") Sample.params
  = Returns (py "956ab68ca88fcde36d8c2aa51cb18ae3").
Proof.
  refine (proj1 (generate_signature_md5
                   Sample.aliexpress (py "/api/") Sample.params Sample.items _ _ _)).
  - apply (bool_decide_unpack _). vm_compute. reflexivity.
  - apply (bool_decide_unpack _). vm_compute. reflexivity.
  - vm_compute. reflexivity.
Defined.

(** Every mapping has its listing by key: the theorem above speaks of
    all of them. *)
Lemma items_by_key_exist (params : gmap str str) :
  exists items, items ≡ₚ map_to_list params /\ in_key_order items.
Proof.
  exists (sorted (map_to_list params)). split.
  - apply merge_sort_Permutation.
  - apply sorted_in_key_order.
Qed.

(* --------------------------------------------------------------------- *)
(** ** Patterns *)
(* --------------------------------------------------------------------- *)

Module ReFacts.
Section Facts.
Context {R : Type}.
Implicit Types (s l a : str) (k : @Re.cont R) (p : char -> bool).

Lemma lit_app l s k : Re.lit l (l ++ s) k = k s.
Proof.
  induction l as [|c l IH]; simpl; [done|].
  unfold Re.chr. by rewrite N.eqb_refl.
Qed.

Lemma lit_Some l s k r :
  Re.lit l s k = Some r -> exists s', s = l ++ s' /\ k s' = Some r.
Proof.
  revert s. induction l as [|c l IH]; intros s; simpl.
  - intros Hk. by exists s.
  - unfold Re.chr. destruct s as [|x s]; [done|].
    destruct (N.eqb_spec c x) as [->|]; [|done].
    intros (s' & -> & Hk)%IH. by exists s'.
Qed.

Lemma chr_Some p s k r :
  Re.chr p s k = Some r <-> exists c s', s = c :: s' /\ p c = true /\ k s' = Some r.
Proof.
  unfold Re.chr. split.
  - destruct s as [|c s']; [done|]. destruct (p c) eqn:E; [|done].
    intros Hk. by exists c, s'.
  - intros (c & s' & -> & -> & Hk). done.
Qed.

Lemma star_Some p s k r :
  Re.star p s k = Some r ->
  exists a s', s = a ++ s' /\ forallb p a = true /\ k s' = Some r.
Proof.
  induction s as [|c s IH]; simpl.
  - intros Hk. by exists [], [].
  - destruct (p c) eqn:E.
    + destruct (Re.star p s k) as [r'|] eqn:Es.
      * intros [= ->]. destruct (IH eq_refl) as (a & s' & -> & Ha & Hk).
        exists (c :: a), s'. simpl. by rewrite E, Ha.
      * intros Hk. by exists [], (c :: s).
    + intros Hk. by exists [], (c :: s).
Qed.

(** When the continuation refuses every text that starts inside the
    run, only the whole run is left. *)
Lemma star_maximal p a s k :
  forallb p a = true -> Re.stops p s ->
  (forall c s', p c = true -> k (c :: s') = None) ->
  Re.star p (a ++ s) k = k s.
Proof.
  intros Ha Hs Hk. induction a as [|c a IH].
  - destruct s as [|c s]; [done|]. simpl in *. by rewrite Hs.
  - simpl in Ha. apply andb_true_iff in Ha as [Hc Ha].
    simpl. rewrite Hc, (IH Ha).
    destruct (k s) eqn:E; [done|].
    by apply Hk.
Qed.

Lemma rep_Some n p s k r :
  Re.rep n p s k = Some r <->
  exists a s', s = a ++ s' /\ length a = n /\ forallb p a = true /\ k s' = Some r.
Proof.
  revert s. induction n as [|n IH]; intros s; simpl.
  - split.
    + intros Hk. by exists [], s.
    + intros (a & s' & -> & Hl & _ & Hk). by destruct a.
  - rewrite chr_Some. split.
    + intros (c & s1 & -> & Hc & (a & s' & -> & <- & Ha & Hk)%IH).
      exists (c :: a), s'. simpl. by rewrite Hc, Ha.
    + intros (a & s' & -> & Hl & Ha & Hk). destruct a as [|c a]; [done|].
      simpl in *. apply andb_true_iff in Ha as [Hc Ha].
      exists c, (a ++ s'). repeat split; [done|]. apply IH.
      exists a, s'. repeat split; [lia|done|done].
Qed.

(** [re.search] answers with the match at the leftmost position
    that has one. *)
Lemma search_Some (m : str -> option R) s r :
  Re.search m s = Some r <->
  exists pre s', s = pre ++ s' /\ m s' = Some r /\
    forall pre1 s1, s = pre1 ++ s1 -> length pre1 < length pre -> m s1 = None.
Proof.
  induction s as [|c s IH]; simpl.
  - split.
    + destruct (m []) eqn:E; [|done]. intros [= ->].
      exists [], []. repeat split; [done|]. simpl. lia.
    + intros (pre & s' & Hs & Hm & _).
      symmetry in Hs. apply app_eq_nil in Hs as [-> ->]. by rewrite Hm.
  - destruct (m (c :: s)) eqn:E.
    + split.
      * intros [= ->]. exists [], (c :: s). repeat split; [done|]. simpl. lia.
      * intros (pre & s' & Hs & Hm & Hleft). destruct pre as [|x pre].
        -- simpl in Hs. subst s'. congruence.
        -- specialize (Hleft [] (c :: s) eq_refl). simpl in Hleft.
           rewrite Hleft in E by lia. done.
    + rewrite IH. split.
      * intros (pre & s' & -> & Hm & Hleft). exists (c :: pre), s'.
        repeat split; [done|]. intros [|x pre1] s1 Hs Hlen.
        -- simpl in Hs. by subst s1.
        -- simpl in Hs. injection Hs as -> Hs. apply (Hleft pre1); [done|].
           simpl in Hlen. lia.
      * intros (pre & s' & Hs & Hm & Hleft). destruct pre as [|x pre].
        -- simpl in Hs. subst s'. congruence.
        -- simpl in Hs. injection Hs as -> ->. exists pre, s'.
           repeat split; [done|]. intros pre1 s1 Hs Hlen.
           apply (Hleft (x :: pre1)); [by rewrite Hs|]. simpl. lia.
Qed.

Lemma search_None (m : str -> option R) s :
  Re.search m s = None <-> forall pre s', s = pre ++ s' -> m s' = None.
Proof.
  induction s as [|c s IH]; simpl.
  - split.
    + destruct (m []) eqn:E; [done|]. intros _ pre s' Hs.
      symmetry in Hs. by apply app_eq_nil in Hs as [-> ->].
    + intros Hall. by rewrite (Hall [] []).
  - split.
    + destruct (m (c :: s)) eqn:E; [done|]. rewrite IH.
      intros Hall [|x pre] s' Hs.
      * simpl in Hs. by subst s'.
      * simpl in Hs. injection Hs as -> Hs. by apply (Hall pre).
    + intros Hall. rewrite (Hall [] (c :: s) eq_refl). apply IH.
      intros pre s' ->. by apply (Hall (c :: pre)).
Qed.

Lemma search_leftmost (m : str -> option R) s r :
  Re.search m s = Some r <->
  exists n, match_at m s n r /\ forall n' r', match_at m s n' r' -> n <= n'.
Proof.
  rewrite search_Some. split.
  - intros (pre & s' & Hs & Hm & Hleft). exists (length pre). split.
    + by exists pre, s'.
    + intros n' r' (pre' & s1 & Hs' & <- & Hm').
      destruct (decide (length pre <= length pre')) as [|Hlt]; [done|].
      rewrite (Hleft pre' s1 Hs') in Hm' by lia. done.
  - intros (n & (pre & s' & Hs & <- & Hm) & Hmin).
    exists pre, s'. repeat split; [done..|].
    intros pre1 s1 Hs1 Hlen.
    destruct (m s1) as [r1|] eqn:E; [|done].
    assert (match_at m s (length pre1) r1) as Hp%Hmin; [|lia].
    by exists pre1, s1.
Qed.

Lemma search_nowhere (m : str -> option R) s :
  Re.search m s = None <-> forall n r, ~ match_at m s n r.
Proof.
  rewrite search_None. split.
  - intros Hall n r (pre & s' & Hs & _ & Hm). by rewrite (Hall pre s' Hs) in Hm.
  - intros Hnone pre s' Hs.
    destruct (m s') as [r|] eqn:E; [|done].
    destruct (Hnone (length pre) r). by exists pre, s'.
Qed.

End Facts.

Lemma between_app a s : Re.between (a ++ s) s = a.
Proof.
  unfold Re.between. rewrite length_app.
  replace (length a + length s - length s) with (length a) by lia.
  by rewrite take_app_length.
Qed.

(** Each text of [re.findall] is a match of the pattern somewhere in
    the text. *)
Lemma findall_elem (m : str -> option str) skip s x :
  x ∈ Re.findall m skip s ->
  exists pre s' rest, s = pre ++ s' /\ m s' = Some rest /\ x = Re.between s' rest.
Proof.
  revert skip. induction s as [|c s IH]; intros skip; simpl.
  - destruct skip; [|by intros ?%elem_of_nil].
    destruct (m []) as [rest|] eqn:E; [|by intros ?%elem_of_nil].
    intros ->%list_elem_of_singleton. by exists [], [], rest.
  - destruct skip as [|n].
    + destruct (m (c :: s)) as [rest|] eqn:E.
      * intros [->|Hx]%elem_of_cons.
        -- by exists [], (c :: s), rest.
        -- destruct (IH _ Hx) as (pre & s' & rest' & -> & Hm & ->).
           by exists (c :: pre), s', rest'.
      * intros Hx. destruct (IH _ Hx) as (pre & s' & rest' & -> & Hm & ->).
        by exists (c :: pre), s', rest'.
    + intros Hx. destruct (IH _ Hx) as (pre & s' & rest' & -> & Hm & ->).
      by exists (c :: pre), s', rest'.
Qed.

End ReFacts.

(** Literals of the program, evaluated. *)
Ltac eval_py :=
  repeat match goal with
         | |- context [Text.py ?s] =>
             let v := eval vm_compute in (Text.py s) in change (Text.py s) with v
         | H : context [Text.py ?s] |- _ =>
             let v := eval vm_compute in (Text.py s) in change (Text.py s) with v in H
         end.

(* --------------------------------------------------------------------- *)
(** ** AliExpress: the product id *)
(* --------------------------------------------------------------------- *)

Section ProductId.
Context `{UnicodeData}.

Lemma product_id_at_spec s d :
  AliexpressAPIHandler.product_id_at s = Some d <->
  exists post, s = py "/item/" ++ d ++ py ".html" ++ post
               /\ d <> [] /\ forallb Re.decimal d = true.
Proof.
  unfold AliexpressAPIHandler.product_id_at. split.
  - intros (s1 & -> & Hplus)%ReFacts.lit_Some.
    unfold Re.plus in Hplus.
    apply ReFacts.chr_Some in Hplus as (c & s1' & -> & Hc & Hstar).
    apply ReFacts.star_Some in Hstar as (a & s2 & -> & Ha & Hk).
    apply ReFacts.lit_Some in Hk as (post & -> & Hd).
    apply (inj Some) in Hd as <-.
    exists post. change (c :: a ++ py ".html" ++ post) with ((c :: a) ++ py ".html" ++ post).
    rewrite ReFacts.between_app. repeat split; [done|]. simpl. by rewrite Hc, Ha.
  - intros (post & -> & Hne & Hd). rewrite ReFacts.lit_app.
    destruct d as [|c a]; [done|]. simpl in Hd. apply andb_true_iff in Hd as [Hc Ha].
    change ((c :: a) ++ ?x) with (c :: (a ++ x)).
    unfold Re.plus, Re.chr at 1. rewrite Hc.
    rewrite ReFacts.star_maximal; [| done | by eval_py |].
    + rewrite ReFacts.lit_app.
      change (c :: a ++ py ".html" ++ post) with ((c :: a) ++ py ".html" ++ post).
      by rewrite ReFacts.between_app.
    + intros x s' Hx. eval_py. cbn [Re.lit]. unfold Re.chr at 1.
      destruct (N.eqb_spec 46 x) as [<-|]; [|done]. by vm_compute in Hx.
Qed.

Lemma item_path_at_match url n d :
  item_path_at url n d <->
  match_at AliexpressAPIHandler.product_id_at url n d.
Proof.
  split.
  - intros (pre & post & -> & Hn & Hne & Hd).
    exists pre, (py "/item/" ++ d ++ py ".html" ++ post).
    repeat split; [done|]. apply product_id_at_spec. by exists post.
  - intros (pre & s' & -> & Hn & (post & -> & Hne & Hd)%product_id_at_spec).
    by exists pre, post.
Qed.

Lemma extract_product_id_Some url d :
  AliexpressAPIHandler.extract_product_id url = Some d <->
  exists n, item_path_at url n d /\
            forall n' d', item_path_at url n' d' -> n <= n'.
Proof.
  unfold AliexpressAPIHandler.extract_product_id. rewrite ReFacts.search_leftmost.
  split; intros (n & Hn & Hmin); exists n.
  - split; [by apply item_path_at_match|].
    intros n' d' Hn'. apply (Hmin n' d'). by apply item_path_at_match.
  - split; [by apply item_path_at_match|].
    intros n' d' Hn'. apply (Hmin n' d'). by apply item_path_at_match.
Qed.

Lemma extract_product_id_None url :
  AliexpressAPIHandler.extract_product_id url = None <->
  forall n d, ~ item_path_at url n d.
Proof.
  unfold AliexpressAPIHandler.extract_product_id. rewrite ReFacts.search_nowhere.
  split; intros Hnone n d Hn; apply (Hnone n d); by apply item_path_at_match.
Qed.

Context {W : Type} `{Outside W}.

(** C6. [extract_product_id] answers with the digits of the leftmost
    [/item/<digits>.html] of the URL, and with [None] exactly when the
    URL has no such path; without a product id [get_product_info]
    returns [None], the world untouched and nothing sent, also for a
    URL that [can_handle] accepts. *)
Theorem extract_product_id_spec (self : AliexpressAPIHandler.t) (url : str) :
  (forall d,
      AliexpressAPIHandler.extract_product_id url = Some d <->
      exists n, item_path_at url n d /\
                forall n' d', item_path_at url n' d' -> n <= n')
  /\ (AliexpressAPIHandler.extract_product_id url = None <->
      forall n d, ~ item_path_at url n d)
  /\ (AliexpressAPIHandler.extract_product_id url = None ->
      forall st : Eff.st W,
        AliexpressAPIHandler.get_product_info self url st = (Returns None, st))
  /\ AliexpressAPIHandler.extract_product_id
       (py "https://es.aliexpress.com/item/1005006123456.html?spm=a2g0o")
     = Some (py "1005006123456")
  /\ (let store := py "https://www.aliexpress.com/store/1102345" in
      AliexpressAPIHandler.can_handle self store = true
      /\ AliexpressAPIHandler.extract_product_id store = None).
Proof.
  split; [|split; [|split; [|split]]].
  - apply extract_product_id_Some.
  - apply extract_product_id_None.
  - intros Hnone st. unfold AliexpressAPIHandler.get_product_info.
    by rewrite Hnone.
  - vm_compute. reflexivity.
  - split; vm_compute; reflexivity.
Qed.
End ProductId.

Lemma extract_product_id_spec_witness :
  let O := Sample.outside Sample.gadget Sample.shortened (Sample.widget None) in
  @AliexpressAPIHandler.get_product_info Sample.latin1 nat O Sample.aliexpress
    (py "https://www.aliexpress.com/store/1102345") (Eff.St 0 [])
  = (Returns None, Eff.St 0 []).
Proof.
  intros O.
  refine (proj1 (proj2 (proj2 (@extract_product_id_spec Sample.latin1 nat O
                                 Sample.aliexpress _))) _ _).
  vm_compute. reflexivity.
Defined.

(* --------------------------------------------------------------------- *)
(** ** Amazon: the ASIN and the affiliate link *)
(* --------------------------------------------------------------------- *)

Lemma no_line_feed_app a b : no_line_feed (a ++ b) <-> no_line_feed a /\ no_line_feed b.
Proof. unfold no_line_feed. rewrite forallb_app. apply andb_true_iff. Qed.

Section Urls.
Context `{UnicodeData}.

Lemma url_char_no_line_feed body :
  forallb url_char body = true -> no_line_feed body.
Proof.
  unfold no_line_feed. induction body as [|c body IH]; simpl; [done|].
  intros [Hc Hb]%andb_true_iff. rewrite (IH Hb), andb_true_r.
  destruct (N.eqb_spec c 10) as [->|]; [|done]. by vm_compute in Hc.
Qed.

Lemma url_at_shape s rest :
  url_at s = Some rest ->
  exists scheme body,
    s = scheme ++ body ++ rest
    /\ (scheme = py "http://" \/ scheme = py "https://")
    /\ body <> [] /\ forallb url_char body = true.
Proof.
  unfold url_at. intros (s1 & -> & Hopt)%ReFacts.lit_Some.
  assert (Hbody : forall s2,
            Re.lit (py "://") s2
              (fun s3 => Re.plus url_char s3 (fun rest0 => Some rest0)) = Some rest ->
            exists body, s2 = py "://" ++ body ++ rest
                         /\ body <> [] /\ forallb url_char body = true).
  { intros s2 (s3 & -> & Hplus)%ReFacts.lit_Some. unfold Re.plus in Hplus.
    apply ReFacts.chr_Some in Hplus as (c & s3' & -> & Hc & Hstar).
    apply ReFacts.star_Some in Hstar as (a & rest' & -> & Ha & [= ->]).
    exists (c :: a). repeat split; [done|]. simpl. by rewrite Hc, Ha. }
  unfold Re.opt, Re.alt in Hopt.
  destruct (Re.lit (py "s") s1 _) as [r|] eqn:Es.
  - apply (inj Some) in Hopt as ->.
    apply ReFacts.lit_Some in Es as (s2 & -> & (body & -> & Hne & Hb)%Hbody).
    exists (py "https://"), body.
    split; [by eval_py|]. split; [by right|done].
  - apply Hbody in Hopt as (body & -> & Hne & Hb).
    exists (py "http://"), body.
    split; [by eval_py|]. split; [by left|done].
Qed.

(** The URLs that the dispatcher hands to the handlers hold no line
    feed. *)
Lemma extract_urls_no_line_feed text url :
  url ∈ extract_urls text -> no_line_feed url.
Proof.
  unfold extract_urls.
  intros (pre & s' & rest & _ & Hm & ->)%ReFacts.findall_elem.
  apply url_at_shape in Hm as (scheme & body & -> & Hscheme & _ & Hbody).
  rewrite app_assoc, ReFacts.between_app. apply no_line_feed_app. split.
  - by destruct Hscheme as [-> | ->].
  - by apply url_char_no_line_feed.
Qed.
End Urls.

(** The pattern of the ASIN at the head of a text. Its [$] also accepts
    a line feed that ends the text. *)
Lemma asin_at_spec s a :
  AmazonAPIHandler.asin_at s = Some a <->
  exists post, s = py "/" ++ a ++ post /\ asin_shape a
               /\ (segment_end post \/ post = [10%N]).
Proof.
  unfold AmazonAPIHandler.asin_at, asin_shape. split.
  - intros (s1 & -> & Hrep)%ReFacts.lit_Some.
    apply ReFacts.rep_Some in Hrep as (a' & s2 & -> & Hlen & Ha & Halt).
    rewrite ReFacts.between_app in Halt. unfold Re.alt in Halt.
    destruct (Re.chr _ s2 _) as [r|] eqn:Echr.
    + apply (inj Some) in Halt as ->.
      apply ReFacts.chr_Some in Echr as (c & s' & -> & Hc & Hr).
      apply (inj Some) in Hr as <-.
      exists (c :: s'). repeat split; [done..|]. left. right. by exists c, s'.
    + unfold Re.eol in Halt. exists s2.
      destruct s2 as [|c [|c' s2]]; try done.
      * apply (inj Some) in Halt as <-. repeat split; [done..|]. left. by left.
      * destruct (N.eqb_spec c 10) as [->|]; [|done].
        apply (inj Some) in Halt as <-. repeat split; [done..|]. by right.
  - intros (post & -> & [Hlen Ha] & Hend). rewrite ReFacts.lit_app.
    apply ReFacts.rep_Some. exists a, post. repeat split; [done..|].
    rewrite ReFacts.between_app. unfold Re.alt.
    destruct Hend as [[->|(c & post' & -> & Hc)]| ->].
    + done.
    + unfold Re.chr. by rewrite Hc.
    + done.
Qed.

Lemma asin_segment_at_match url n a :
  no_line_feed url ->
  asin_segment_at url n a <-> match_at AmazonAPIHandler.asin_at url n a.
Proof.
  intros Hnl. split.
  - intros (pre & post & -> & Hn & Ha & Hend).
    exists pre, (py "/" ++ a ++ post). repeat split; [done|].
    apply asin_at_spec. exists post. auto.
  - intros (pre & s' & -> & Hn & (post & -> & Ha & [Hend| ->])%asin_at_spec).
    + by exists pre, post.
    + exfalso. rewrite !no_line_feed_app in Hnl. by destruct Hnl as (_ & _ & _ & Hnl).
Qed.

(** C5. For a URL (a text without line feed), [extract_asin] answers
    with the leftmost segment [/a] of ten characters of [A-Z0-9] that a
    ['/'], a ['?'] or the end of the string bounds on the right, and
    with [None] exactly when the URL has no such segment; a segment of
    nine or of eleven such characters is no ASIN. *)
Theorem extract_asin_spec (url : str) :
  no_line_feed url ->
  (forall a,
      AmazonAPIHandler.extract_asin url = Some a <->
      exists n, asin_segment_at url n a /\
                forall n' a', asin_segment_at url n' a' -> n <= n')
  /\ (AmazonAPIHandler.extract_asin url = None <->
      forall n a, ~ asin_segment_at url n a)
  /\ AmazonAPIHandler.extract_asin (py "https://www.amazon.es/dp/B08N5WRWNW/ref=sr_1_1")
     = Some (py "B08N5WRWNW")
  /\ AmazonAPIHandler.extract_asin (py "https://www.amazon.es/dp/B08N5WRWN/ref=sr_1_1")
     = None
  /\ AmazonAPIHandler.extract_asin (py "https://www.amazon.es/dp/B08N5WRWNW7/ref=sr_1_1")
     = None.
Proof.
  intros Hnl. split; [|split; [|repeat split; vm_compute; reflexivity]].
  - intros a. unfold AmazonAPIHandler.extract_asin. rewrite ReFacts.search_leftmost.
    split; intros (n & Hn & Hmin); exists n.
    + split; [by apply asin_segment_at_match|].
      intros n' a' Hn'. apply (Hmin n' a'). by apply asin_segment_at_match.
    + split; [by apply asin_segment_at_match|].
      intros n' a' Hn'. apply (Hmin n' a'). by apply asin_segment_at_match.
  - unfold AmazonAPIHandler.extract_asin. rewrite ReFacts.search_nowhere.
    split; intros Hnone n a Hn; apply (Hnone n a); by apply asin_segment_at_match.
Qed.

Lemma extract_asin_spec_witness :
  exists n,
    asin_segment_at (py "https://www.amazon.es/dp/B08N5WRWNW/ref=sr_1_1") n (py "B08N5WRWNW").
Proof.
  destruct (extract_asin_spec (py "https://www.amazon.es/dp/B08N5WRWNW/ref=sr_1_1"))
    as (Hsome & _).
  - vm_compute. reflexivity.
  - destruct (proj1 (Hsome (py "B08N5WRWNW"))) as (n & Hn & _).
    + vm_compute. reflexivity.
    + by exists n.
Defined.

Lemma extract_asin_shape url a :
  AmazonAPIHandler.extract_asin url = Some a -> asin_shape a.
Proof.
  unfold AmazonAPIHandler.extract_asin.
  intros (pre & s' & _ & (post & _ & Ha & _)%asin_at_spec & _)%ReFacts.search_Some.
  exact Ha.
Qed.

(** C7. With an ASIN extracted, the affiliate link is
    [https://www.amazon.<country>/dp/<ASIN>?tag=<tag>]: of the URL
    nothing but the ASIN is left in it. *)
Theorem amazon_affiliate_link (self : AmazonAPIHandler.t) (url asin : str) :
  AmazonAPIHandler.extract_asin url = Some asin ->
  AmazonAPIHandler.create_affiliate_link self url
  = py "https://www.amazon." ++ amazon_country (AmazonAPIHandler.config self)
      ++ py "/dp/" ++ asin
      ++ py "?tag=" ++ amazon_affiliate_tag (AmazonAPIHandler.config self)
  /\ (forall url',
        AmazonAPIHandler.extract_asin url' = Some asin ->
        AmazonAPIHandler.create_affiliate_link self url'
        = AmazonAPIHandler.create_affiliate_link self url).
Proof.
  intros Hasin. pose proof (extract_asin_shape _ _ Hasin) as [Hlen _].
  assert (Hlink : forall u, AmazonAPIHandler.extract_asin u = Some asin ->
            AmazonAPIHandler.create_affiliate_link self u
            = py "https://www.amazon." ++ amazon_country (AmazonAPIHandler.config self)
                ++ py "/dp/" ++ asin
                ++ py "?tag=" ++ amazon_affiliate_tag (AmazonAPIHandler.config self)).
  { intros u Hu. unfold AmazonAPIHandler.create_affiliate_link. rewrite Hu.
    destruct asin; [simpl in Hlen; lia | done]. }
  split; [by apply Hlink|].
  intros url' Hurl'. by rewrite !Hlink.
Qed.

Lemma amazon_affiliate_link_witness :
  AmazonAPIHandler.create_affiliate_link Sample.amazon
    (py "https://www.amazon.com/-/es/dp/B08N5WRWNW?tag=other-20&psc=1")
  = py "https://www.amazon.es/dp/B08N5WRWNW?tag=tag-21".
Proof.
  refine (eq_trans (proj1 (amazon_affiliate_link Sample.amazon _ (py "B08N5WRWNW") _)) _).
  - vm_compute. reflexivity.
  - vm_compute. reflexivity.
Defined.

(** C4, as the code has it. Without an ASIN the Amazon handler returns
    the URL unchanged; the AliExpress handler does not look for the
    product id: it appends [?aff_id=<id>] to every URL. *)
Theorem affiliate_link_without_identifier :
  (forall (self : AmazonAPIHandler.t) (url : str),
      AmazonAPIHandler.extract_asin url = None ->
      AmazonAPIHandler.create_affiliate_link self url = url)
  /\ (forall (self : AliexpressAPIHandler.t) (url : str),
        AliexpressAPIHandler.create_affiliate_link self url
        = url ++ py "?aff_id=" ++ aliexpress_aff_id (AliexpressAPIHandler.config self)
        /\ AliexpressAPIHandler.create_affiliate_link self url <> url).
Proof.
  split.
  - intros self url Hnone. unfold AmazonAPIHandler.create_affiliate_link. by rewrite Hnone.
  - intros self url. split; [done|].
    unfold AliexpressAPIHandler.create_affiliate_link. intros Heq.
    apply (f_equal length) in Heq. rewrite !length_app in Heq.
    eval_py. simpl in Heq. lia.
Qed.

Lemma affiliate_link_without_identifier_witness :
  AmazonAPIHandler.create_affiliate_link Sample.amazon (py "https://www.amazon.es/gp/help")
  = py "https://www.amazon.es/gp/help".
Proof.
  refine (proj1 affiliate_link_without_identifier Sample.amazon _ _).
  vm_compute. reflexivity.
Defined.

(** C4, as stated, fails on a store page of AliExpress: no product id,
    and yet another link than the URL. *)
Lemma aliexpress_link_without_product_id :
  let url := py "https://www.aliexpress.com/store/1102345" in
  @AliexpressAPIHandler.extract_product_id Sample.latin1 url = None
  /\ AliexpressAPIHandler.create_affiliate_link Sample.aliexpress url
     = py "https://www.aliexpress.com/store/1102345?aff_id=aff42"
  /\ AliexpressAPIHandler.create_affiliate_link Sample.aliexpress url <> url.
Proof. vm_compute. repeat split; discriminate. Qed.

(* --------------------------------------------------------------------- *)
(** ** The link shortener *)
(* --------------------------------------------------------------------- *)

Section Shortener.
Context {W : Type} `{Outside W}.

(** C9. [shorten_url] always returns: the body of the response when the
    shortener answers 200, and the link it was given when the answer
    has another status or the request raises. *)
Theorem shorten_url_never_raises (url : str) (st : Eff.st W) :
  let answer :=
    requests_get (py "https://tinyurl.com/api-create.php?url=" ++ url) None None
                 (Eff.world st) in
  let st' := Eff.St answer.2 (Eff.outbox st) in
  (exists link, shorten_url url st = (Returns link, st'))
  /\ (forall response,
        answer.1 = Returns response -> requests.status_code response = 200%Z ->
        shorten_url url st = (Returns (requests.text response), st'))
  /\ (forall response,
        answer.1 = Returns response -> requests.status_code response <> 200%Z ->
        shorten_url url st = (Returns url, st'))
  /\ (forall e, answer.1 = Raises e -> shorten_url url st = (Returns url, st')).
Proof.
  intros answer st'. subst st'.
  unfold shorten_url, Eff.try_, Eff.bind, Eff.call_raising, Eff.ret.
  fold answer. destruct answer as [[response|e] w]; simpl.
  - split; [eauto|]. split; [|split].
    + intros ? [= <-] Hok. by rewrite Hok.
    + intros ? [= <-] Hko. by apply Z.eqb_neq in Hko as ->.
    + intros ? [=].
  - split; [eauto|]. split; [|split].
    + intros ? [=].
    + intros ? [=].
    + done.
Qed.
End Shortener.

Lemma shorten_url_never_raises_witness :
  let link := py "https://www.amazon.es/dp/B000123ABC?tag=tag-21" in
  let up := Sample.outside Sample.gadget Sample.shortened (Sample.widget None) in
  let down := Sample.outside Sample.gadget Sample.unavailable (Sample.widget None) in
  @shorten_url nat up link (Eff.St 0 []) = (Returns (py "https://tinyurl.com/2abc"), Eff.St 1 [])
  /\ @shorten_url nat down link (Eff.St 0 []) = (Returns link, Eff.St 1 []).
Proof.
  intros link up down. split.
  - refine (proj1 (proj2 (@shorten_url_never_raises nat up link (Eff.St 0 []))) _ eq_refl _).
    reflexivity.
  - refine (proj1 (proj2 (proj2 (@shorten_url_never_raises nat down link (Eff.St 0 []))))
              _ eq_refl _).
    discriminate.
Defined.

(* --------------------------------------------------------------------- *)
(** ** Who sends replies *)
(* --------------------------------------------------------------------- *)

Module EffFacts.
Section Facts.
Context {W : Type}.

Lemma keeps_ret {A} (a : A) : keeps_outbox (W:=W) (Eff.ret a).
Proof. done. Qed.

Lemma keeps_lift {A} (o : outcome A) : keeps_outbox (W:=W) (Eff.lift o).
Proof. done. Qed.

Lemma keeps_call {A} (f : W -> A * W) : keeps_outbox (Eff.call f).
Proof. intros st. unfold Eff.call. by destruct (f _). Qed.

Lemma keeps_call_raising {A} (f : W -> outcome A * W) : keeps_outbox (Eff.call_raising f).
Proof. intros st. unfold Eff.call_raising. by destruct (f _). Qed.

Lemma keeps_bind {A B} (m : Eff.M W A) (f : A -> Eff.M W B) :
  keeps_outbox m -> (forall a, keeps_outbox (f a)) -> keeps_outbox (Eff.bind m f).
Proof.
  intros Hm Hf st. unfold Eff.bind. specialize (Hm st).
  destruct (m st) as [[a|e] st1]; simpl in *; [|done].
  by rewrite Hf.
Qed.

Lemma keeps_try {A} (m : Eff.M W A) (h : exn -> Eff.M W A) :
  keeps_outbox m -> (forall e, keeps_outbox (h e)) -> keeps_outbox (Eff.try_ m h).
Proof.
  intros Hm Hh st. unfold Eff.try_. specialize (Hm st).
  destruct (m st) as [[a|e] st1]; simpl in *; [done|].
  by rewrite Hh.
Qed.

Lemma keeps_if {A} (b : bool) (m1 m2 : Eff.M W A) :
  keeps_outbox m1 -> keeps_outbox m2 -> keeps_outbox (if b then m1 else m2).
Proof. by destruct b. Qed.

End Facts.
End EffFacts.

Ltac keeps :=
  repeat first
    [ apply EffFacts.keeps_ret
    | apply EffFacts.keeps_lift
    | apply EffFacts.keeps_call
    | apply EffFacts.keeps_call_raising
    | apply EffFacts.keeps_if
    | apply EffFacts.keeps_bind; [|intros ?]
    | apply EffFacts.keeps_try; [|intros ?] ].

Section Quiet.
Context `{UnicodeData} {W : Type} `{Outside W}.

Lemma aliexpress_keeps_outbox self url :
  keeps_outbox (AliexpressAPIHandler.get_product_info self url).
Proof.
  unfold AliexpressAPIHandler.get_product_info.
  destruct (AliexpressAPIHandler.extract_product_id url) as [[|c d]|]; keeps.
Qed.

Lemma amazon_keeps_outbox self url :
  keeps_outbox (AmazonAPIHandler.get_product_info self url).
Proof.
  unfold AmazonAPIHandler.get_product_info.
  destruct (AmazonAPIHandler.extract_asin url) as [[|c d]|]; keeps.
Qed.

Lemma shorten_url_keeps_outbox url : keeps_outbox (shorten_url url).
Proof. unfold shorten_url. keeps. Qed.

Lemma handlers_of_quiet config api : Forall quiet (handlers_of (W:=W) config api).
Proof.
  repeat constructor; intros url.
  - apply aliexpress_keeps_outbox.
  - apply amazon_keeps_outbox.
Qed.

End Quiet.

(* --------------------------------------------------------------------- *)
(** ** The description of a product *)
(* --------------------------------------------------------------------- *)

Lemma truthy_or_text a t : t <> [] -> truthy (or_ a (VStr t)) = true.
Proof. intros Ht. unfold or_. destruct (truthy a) eqn:E; [done|]. by destruct t. Qed.

Lemma caption_with_description product link :
  truthy (description product) = true ->
  exists before,
    caption_of product link = before ++ description_line product ++ py "🔗 " ++ link.
Proof.
  intros Hd.
  exists (py "<b>" ++ format (title product) ++ py "</b>" ++ [10%N]
            ++ py "💸 Precio: " ++ format (price product) ++ [10%N]
            ++ (if truthy (old_price product)
                then py "💰 Antes: " ++ format (old_price product) ++ [10%N] else [])).
  unfold caption_of, description_line. rewrite Hd.
  destruct (truthy (old_price product)); rewrite <- ?app_assoc; reflexivity.
Qed.

Lemma first_Returns {A} (l : option (list A)) a :
  first l = Returns a -> exists more, l = Some (a :: more).
Proof. destruct l as [[|x more]|]; intros [=]. subst. by exists more. Qed.

Section Description.
Context `{UnicodeData} {W : Type} `{Outside W}.

Lemma aliexpress_description self url (st st' : Eff.st W) product :
  AliexpressAPIHandler.get_product_info self url st = (Returns (Some product), st') ->
  truthy (description product) = true.
Proof.
  unfold AliexpressAPIHandler.get_product_info.
  unfold Eff.bind, Eff.try_, Eff.call, Eff.call_raising, Eff.lift, Eff.ret.
  intros Hp. repeat case_match; simplify_eq/=.
  apply truthy_or_text. by eval_py.
Qed.

(** The description of an AliExpress product is the one of the vendor,
    read from the [result] of the response, when that is there and not
    empty, and the placeholder otherwise. *)
Lemma aliexpress_description_value self url (st st' : Eff.st W) product :
  AliexpressAPIHandler.get_product_info self url st = (Returns (Some product), st') ->
  exists params response entries fields,
    requests_get AliexpressAPIHandler.BASE_URL (Some params) (Some 10%Z)
      (time_ms (Eff.world st)).2
    = (Returns response, Eff.world st')
    /\ requests.json response = Returns (requests.DataDict entries)
    /\ entries !! py "result" = Some (requests.ResultDict fields)
    /\ let vendor := default VNone (fields !! py "productDescription") in
       description product
       = if truthy vendor then vendor else VStr (py "Producto en AliExpress").
Proof.
  unfold AliexpressAPIHandler.get_product_info.
  destruct (AliexpressAPIHandler.extract_product_id url) as [[|c d]|]; [done| |done].
  unfold Eff.bind at 1, Eff.call at 1.
  destruct (time_ms (Eff.world st)) as [ts w1]. simpl.
  unfold Eff.bind at 1, Eff.lift at 1.
  destruct (AliexpressAPIHandler._generate_signature _ _ _) as [sign|e]; [|done].
  unfold Eff.try_, Eff.bind, Eff.call_raising, Eff.lift, Eff.ret.
  destruct (requests_get _ _ _ _) as [[response|e] w2] eqn:Hget; simpl; [|done].
  destruct (requests.raise_for_status response); simpl; [|done].
  destruct (requests.json response) as [[entries|b]|e] eqn:Hjson; simpl; [| |done].
  - destruct (entries !! py "result") as [[fields|]|] eqn:Hres; simpl; [|done|done].
    intros [= <- <-]. eexists _, response, entries, fields. simpl.
    split; [exact Hget|]. done.
  - destruct b as [[]|]; done.
Qed.

Lemma amazon_description self url (st st' : Eff.st W) product :
  AmazonAPIHandler.get_product_info self url st = (Returns (Some product), st') ->
  exists asin response found item others info,
    AmazonAPIHandler.extract_asin url = Some asin
    /\ get_items (AmazonAPIHandler.api self) [asin] (Eff.world st)
       = (Returns response, Eff.world st')
    /\ paapi.items_result response = Some found
    /\ paapi.items found = Some (item :: others)
    /\ paapi.item_info item = Some info
    /\ match paapi.features info with
       | None => description product = VStr (py "Producto de Amazon")
       | Some features =>
           exists more, paapi.display_values features = Some (description product :: more)
       end.
Proof.
  unfold AmazonAPIHandler.get_product_info.
  unfold Eff.bind, Eff.try_, Eff.call_raising, Eff.lift, Eff.ret.
  intros Hp.
  destruct (AmazonAPIHandler.extract_asin url) as [[|c asin]|] eqn:Hasin; simplify_eq/=.
  destruct (get_items _ _ _) as [[response|e] w] eqn:Hget; simplify_eq/=.
  destruct response as [[[[[|item others]|]]|]]; simplify_eq/=.
  destruct item as [[[title features]|] images offers]; simplify_eq/=.
  exists (c :: asin). do 5 eexists. split; [reflexivity|].
  assert (w = Eff.world st') as ->.
  { repeat case_match; simplify_eq/=; done. }
  split; [exact Hget|].
  repeat (split; [reflexivity|]). simpl.
  repeat case_match; simplify_eq/=; [|done].
  match goal with
  | Hf : first _ = Returns _ |- _ => apply first_Returns in Hf as [more ->]
  end.
  by exists more.
Qed.

(** C10, as the code has it. A product of the AliExpress handler has a
    description that is neither [None] nor empty: it is the
    [productDescription] of the [result] that the API answered with
    when that is there and not empty, and the placeholder
    [Producto en AliExpress] when it is missing or empty; and its line
    is in the caption. A product of the Amazon handler has the
    placeholder when the item has no features, and else the first
    feature as Amazon gave it; its line is in the caption when that
    value is not empty. *)
Theorem product_description :
  (forall self url (st st' : Eff.st W) product,
      AliexpressAPIHandler.get_product_info self url st = (Returns (Some product), st') ->
      truthy (description product) = true
      /\ (exists params response entries fields,
            requests_get AliexpressAPIHandler.BASE_URL (Some params) (Some 10%Z)
              (time_ms (Eff.world st)).2
            = (Returns response, Eff.world st')
            /\ requests.json response = Returns (requests.DataDict entries)
            /\ entries !! py "result" = Some (requests.ResultDict fields)
            /\ let vendor := default VNone (fields !! py "productDescription") in
               description product
               = if truthy vendor then vendor else VStr (py "Producto en AliExpress"))
      /\ forall link, exists before,
           caption_of product link = before ++ description_line product ++ py "🔗 " ++ link)
  /\ (forall self url (st st' : Eff.st W) product,
        AmazonAPIHandler.get_product_info self url st = (Returns (Some product), st') ->
        (exists asin response found item others info,
            AmazonAPIHandler.extract_asin url = Some asin
            /\ get_items (AmazonAPIHandler.api self) [asin] (Eff.world st)
               = (Returns response, Eff.world st')
            /\ paapi.items_result response = Some found
            /\ paapi.items found = Some (item :: others)
            /\ paapi.item_info item = Some info
            /\ match paapi.features info with
               | None => description product = VStr (py "Producto de Amazon")
               | Some features =>
                   exists more,
                     paapi.display_values features = Some (description product :: more)
               end)
        /\ (truthy (description product) = true ->
            forall link, exists before,
              caption_of product link
              = before ++ description_line product ++ py "🔗 " ++ link)).
Proof.
  split.
  - intros self url st st' product Hp.
    pose proof (aliexpress_description _ _ _ _ _ Hp) as Hd.
    split; [done|]. split; [by apply (aliexpress_description_value self url)|].
    intros link. by apply caption_with_description.
  - intros self url st st' product Hp. split.
    + by eapply amazon_description.
    + intros Hd link. by apply caption_with_description.
Qed.
End Description.

Lemma product_description_witness :
  let st := Eff.St 0 [] in
  let O := Sample.outside Sample.gadget Sample.unavailable (Sample.widget None) in
  exists product st',
    @AliexpressAPIHandler.get_product_info Sample.latin1 nat O Sample.aliexpress
      (py "https://es.aliexpress.com/item/1005006123456.html") st
    = (Returns (Some product), st')
    /\ description product = VStr (py "Producto en AliExpress")
    /\ truthy (description product) = true.
Proof.
  intros st O. eexists _, _. split; [vm_compute; reflexivity|]. split; [vm_compute; reflexivity|].
  refine (proj1 (proj1 (@product_description Sample.latin1 nat O)
                   Sample.aliexpress (py "https://es.aliexpress.com/item/1005006123456.html")
                   st _ _ _)).
  vm_compute. reflexivity.
Defined.

(** C10, as stated, fails on an item of Amazon whose first feature is
    the empty string: the product is found, its description is empty,
    and the caption has no line for it. *)
Lemma amazon_empty_description :
  let st := Eff.St 0 [] in
  let O := Sample.outside Sample.gadget Sample.shortened
             (Sample.widget (Some {| paapi.display_values := Some [VStr []] |})) in
  exists product st',
    @AmazonAPIHandler.get_product_info nat O Sample.amazon
      (py "https://www.amazon.com/dp/B000123ABC/ref=x") st
    = (Returns (Some product), st')
    /\ description product = VStr []
    /\ truthy (description product) = false
    /\ caption_of product (py "https://tinyurl.com/2abc")
       = py "<b>Widget</b>" ++ [10%N] ++ py "💸 Precio: $9.99" ++ [10%N]
           ++ py "🔗 https://tinyurl.com/2abc".
Proof.
  intros st O. eexists _, _. split; [vm_compute; reflexivity|].
  repeat split; vm_compute; reflexivity.
Qed.

(* --------------------------------------------------------------------- *)
(** ** The dispatcher *)
(* --------------------------------------------------------------------- *)

Section Dispatcher.
Context `{UnicodeData} {W : Type} `{Outside W}.

Lemma for_handlers_unhandled handlers url (st : Eff.st W) :
  Forall (cannot_handle url) handlers ->
  for_handlers handlers url st = (Returns tt, st).
Proof.
  induction 1 as [|h hs Hh _ IH]; simpl; [done|].
  unfold cannot_handle in Hh. by rewrite Hh.
Qed.

Lemma for_handlers_skip skipped handlers url (st : Eff.st W) :
  Forall (cannot_handle url) skipped ->
  for_handlers (skipped ++ handlers) url st = for_handlers handlers url st.
Proof.
  induction 1 as [|h hs Hh _ IH]; simpl; [done|].
  unfold cannot_handle in Hh. by rewrite Hh.
Qed.

(** After a handler that accepts the URL and finds no product, the URL
    is echoed and the loop goes on with the handlers that follow. *)
Lemma for_handlers_no_product h handlers url (st st' : Eff.st W) :
  Handler.can_handle h url = true ->
  Handler.get_product_info h url st = (Returns None, st') ->
  for_handlers (h :: handlers) url st
  = for_handlers handlers url
      (Eff.St (Eff.world st') (Eff.outbox st' ++ [fallback_reply url])).
Proof.
  intros Hh Hp. simpl. rewrite Hh. unfold Eff.bind at 1. rewrite Hp.
  unfold Eff.bind, Eff.send. done.
Qed.

(** The loop only adds to the replies. *)
Lemma for_handlers_outbox handlers url (st : Eff.st W) :
  Forall quiet handlers ->
  exists more, Eff.outbox (for_handlers handlers url st).2 = Eff.outbox st ++ more.
Proof.
  intros Hq. revert st. induction Hq as [|h hs Hh _ IH]; intros st; simpl.
  - exists []. by rewrite app_nil_r.
  - destruct (Handler.can_handle h url); [|apply IH].
    unfold Eff.bind at 1. pose proof (Hh url st) as Hkeep.
    destruct (Handler.get_product_info h url st) as [[[product|]|e] st1]; simpl in *.
    + unfold Eff.bind at 1.
      pose proof (shorten_url_keeps_outbox
                    (Handler.create_affiliate_link h url) st1) as Hshort.
      destruct (shorten_url _ st1) as [[link|e] st2]; simpl in *.
      * exists [if truthy (image_url product)
                then telegram.reply_photo (image_url product)
                       (caption_of product link) (Some (py "HTML"))
                else telegram.reply_text (caption_of product link) (Some (py "HTML"))].
        destruct (truthy (image_url product)); simpl; congruence.
      * exists []. rewrite app_nil_r. congruence.
    + unfold Eff.bind at 1, Eff.send at 1. simpl.
      destruct (IH (Eff.St (Eff.world st1)
                      (Eff.outbox st1 ++ [telegram.reply_text (py "🔗 " ++ url) None])))
        as [more Hmore].
      exists (telegram.reply_text (py "🔗 " ++ url) None :: more).
      rewrite Hmore. simpl. rewrite Hkeep, <- app_assoc. done.
    + exists []. rewrite app_nil_r. congruence.
Qed.

Lemma for_urls_unhandled handlers urls (st : Eff.st W) :
  Forall (fun url => Forall (cannot_handle url) handlers) urls ->
  for_urls handlers urls st = (Returns tt, st).
Proof.
  induction 1 as [|url urls Hurl _ IH]; simpl; [done|].
  unfold Eff.bind. by rewrite for_handlers_unhandled.
Qed.

(** What [process_link_handlers] does: the Amazon client is built, and
    with it the loop over the URLs runs; an exception of the
    constructor ends it before the first URL. *)
Lemma process_link_handlers_unfold config message (st : Eff.st W) :
  process_link_handlers config message st
  = match new_client config (Eff.world st) with
    | (Returns api, w) =>
        for_urls (handlers_of config api) (extract_urls (prepare_message message))
          (Eff.St w (Eff.outbox st))
    | (Raises e, w) => (Raises e, Eff.St w (Eff.outbox st))
    end.
Proof.
  unfold process_link_handlers, AmazonAPIHandler.__init__, new_client.
  unfold Eff.bind, Eff.call_raising, Eff.ret.
  by destruct (AmazonAPI _ _ _ _ _) as [[api|e] w].
Qed.

(** Whether a handler accepts a URL does not depend on the client. *)
Lemma cannot_handle_any_client config api api' url :
  Forall (cannot_handle url) (handlers_of (W:=W) config api) ->
  Forall (cannot_handle url) (handlers_of (W:=W) config api').
Proof.
  intros [Hali [Hamz _]%Forall_cons]%Forall_cons. by repeat constructor.
Qed.

(** C2, as the code has it. A URL that no handler accepts gets no
    reply, and a message of such URLs none at all; a URL whose first
    accepting handler finds no product is echoed: the next reply is the
    link sign followed by the URL as it was. The handlers are the two
    of the program, whatever Amazon client was built for the message. *)
Theorem dispatcher_fallback
    (config : ConfigurationManager) (api : paapi.AmazonAPI) (url : str) (st : Eff.st W) :
  let handlers := handlers_of config api in
  (Forall (cannot_handle url) handlers ->
   for_handlers handlers url st = (Returns tt, st))
  /\ (forall skipped h later st',
        handlers = skipped ++ h :: later ->
        Forall (cannot_handle url) skipped ->
        Handler.can_handle h url = true ->
        Handler.get_product_info h url st = (Returns None, st') ->
        exists more,
          Eff.outbox (for_handlers handlers url st).2
          = Eff.outbox st ++ fallback_reply url :: more)
  /\ (forall message,
        Forall (fun url => Forall (cannot_handle url) handlers)
               (extract_urls (prepare_message message)) ->
        Eff.outbox (process_link_handlers config message st).2 = Eff.outbox st
        /\ forall w,
             new_client config (Eff.world st) = (Returns api, w) ->
             process_link_handlers config message st
             = (Returns tt, Eff.St w (Eff.outbox st))).
Proof.
  intros handlers. split; [|split].
  - apply for_handlers_unhandled.
  - intros skipped h later st' Hsplit Hskipped Hh Hp.
    pose proof (handlers_of_quiet config api) as Hq. fold handlers in Hq.
    rewrite Hsplit in Hq |- *. apply Forall_app in Hq as [_ Hq].
    apply Forall_cons in Hq as [Hqh Hq].
    rewrite (for_handlers_skip _ _ _ _ Hskipped).
    rewrite (for_handlers_no_product _ _ _ _ _ Hh Hp).
    destruct (for_handlers_outbox later url
                (Eff.St (Eff.world st') (Eff.outbox st' ++ [fallback_reply url])) Hq)
      as [more Hmore].
    exists more. rewrite Hmore. simpl.
    pose proof (Hqh url st) as Hkeep. rewrite Hp in Hkeep. simpl in Hkeep.
    by rewrite Hkeep, <- app_assoc.
  - intros message Hall. rewrite process_link_handlers_unfold.
    destruct (new_client config (Eff.world st)) as [[api'|e] w].
    + rewrite for_urls_unhandled.
      * split; [done|]. by intros w' [= <- <-].
      * eapply Forall_impl; [exact Hall|]. intros u. apply cannot_handle_any_client.
    + split; [done|]. intros w' [=].
Qed.
End Dispatcher.

Lemma dispatcher_fallback_witness :
  let O := Sample.outside Sample.gadget Sample.shortened (Sample.widget None) in
  let url := py "https://es.aliexpress.com/store/1102345" in
  exists more,
    Eff.outbox (@for_handlers nat O
                  (@handlers_of Sample.latin1 nat O Sample.config Sample.client) url
                  (Eff.St 0 [])).2
    = fallback_reply url :: more.
Proof.
  intros O url.
  refine (proj1 (proj2 (@dispatcher_fallback Sample.latin1 nat O Sample.config Sample.client
                          url (Eff.St 0 [])))
            [] (AliexpressAPIHandler.handler Sample.aliexpress)
            [AmazonAPIHandler.handler Sample.amazon] (Eff.St 0 []) eq_refl _ _ _).
  - constructor.
  - vm_compute. reflexivity.
  - vm_compute. reflexivity.
Defined.

(** C2, as stated, fails on a URL of another site: it is extracted, no
    handler accepts it, and nothing is sent. *)
Lemma unhandled_url_gets_no_reply :
  let O := Sample.outside Sample.gadget Sample.shortened (Sample.widget None) in
  let url := py "https://example.com/page" in
  let st := Eff.St 0 [] in
  @extract_urls Sample.latin1 (py "see https://example.com/page") = [url]
  /\ Forall (cannot_handle url) (@handlers_of Sample.latin1 nat O Sample.config Sample.client)
  /\ @process_link_handlers Sample.latin1 nat O Sample.config
       (Some (Sample.message "see https://example.com/page")) st
     = (Returns tt, st)
  /\ Eff.outbox st = [].
Proof.
  intros O url st. split; [vm_compute; reflexivity|]. split; [|split].
  - repeat constructor.
  - vm_compute. reflexivity.
  - reflexivity.
Qed.

(** C3 on the code. The URL of an AliExpress store that also holds
    [amazon.]: the AliExpress handler accepts it and finds no product,
    the URL is echoed, and then the Amazon handler is tried as well: the
    one URL is echoed twice. *)
Lemma second_handler_tried_after_fallback :
  let O := Sample.outside Sample.gadget Sample.shortened (Sample.widget None) in
  let url := py "https://es.aliexpress.com/store/1102345?utm_source=amazon.es" in
  let st := Eff.St 0 [] in
  @extract_urls Sample.latin1 url = [url]
  /\ AliexpressAPIHandler.can_handle Sample.aliexpress url = true
  /\ @AliexpressAPIHandler.get_product_info Sample.latin1 nat O Sample.aliexpress url st
     = (Returns None, st)
  /\ AmazonAPIHandler.can_handle Sample.amazon url = true
  /\ @process_link_handlers Sample.latin1 nat O Sample.config
       (Some {| telegram.text := Some url |}) st
     = (Returns tt, Eff.St 0 [fallback_reply url; fallback_reply url]).
Proof. intros O url st. repeat split; vm_compute; reflexivity. Qed.

(* --------------------------------------------------------------------- *)
(** ** The exclusion filter *)
(* --------------------------------------------------------------------- *)

Section Exclusion.
Context `{UnicodeData} {W : Type} `{Outside W}.

Lemma is_user_excluded_iff (config_manager : ConfigurationManager) (user : telegram.User) :
  telegram.username user <> Some [] ->
  truthy (is_user_excluded config_manager user) = true <->
  inl (telegram.id user) ∈ excluded_users config_manager
  \/ exists name, telegram.username user = Some name
                  /\ inr name ∈ excluded_users config_manager.
Proof.
  intros Hname. unfold is_user_excluded, or_. simpl.
  destruct (decide (inl (telegram.id user) ∈ excluded_users config_manager)) as [Hid|Hid].
  - rewrite bool_decide_eq_true_2 by done. simpl. tauto.
  - rewrite bool_decide_eq_false_2 by done. simpl.
    destruct (telegram.username user) as [[|c name]|]; simpl.
    + done.
    + rewrite bool_decide_eq_true. split.
      * intros Hin. right. by exists (c :: name).
      * intros [?|(name' & [= <-] & Hin)]; done.
    + split; [done|]. intros [?|(name' & [=] & _)]. done.
Qed.

(** C8. The exclusion predicate is true exactly when the id of the
    sender, or the name, is in the excluded set; and the message of an
    excluded sender gets no reply and no call is made for it, whatever
    its text. A name, when the sender has one, is not empty. *)
Theorem excluded_user_gets_no_reply
    (config_manager : ConfigurationManager) (user : telegram.User) :
  telegram.username user <> Some [] ->
  (truthy (is_user_excluded config_manager user) = true <->
   inl (telegram.id user) ∈ excluded_users config_manager
   \/ exists name, telegram.username user = Some name
                   /\ inr name ∈ excluded_users config_manager)
  /\ (forall (update : telegram.Update) (st : Eff.st W),
        telegram.effective_user update = Some user ->
        (inl (telegram.id user) ∈ excluded_users config_manager
         \/ exists name, telegram.username user = Some name
                         /\ inr name ∈ excluded_users config_manager) ->
        modify_link config_manager update st = (Returns tt, st)).
Proof.
  intros Hname. split; [by apply is_user_excluded_iff|].
  intros update st Huser Hexcl%is_user_excluded_iff; [|done].
  unfold modify_link. rewrite Huser, Hexcl.
  destruct (telegram.message update) as [[[[|c text]|]]|]; done.
Qed.
End Exclusion.

Lemma excluded_user_gets_no_reply_witness :
  let O := Sample.outside Sample.gadget Sample.shortened (Sample.widget None) in
  let user := {| telegram.id := 8; telegram.username := Some (py "spammer") |} in
  let update := {|
    telegram.message :=
      Some (Sample.message "check this https://www.amazon.com/dp/B000123ABC/ref=x");
    telegram.effective_user := Some user |} in
  @modify_link Sample.latin1 nat O Sample.config update (Eff.St 0 []) = (Returns tt, Eff.St 0 []).
Proof.
  intros O user update.
  refine (proj2 (@excluded_user_gets_no_reply Sample.latin1 nat O Sample.config user _)
            update (Eff.St 0 []) eq_refl _).
  - discriminate.
  - right. exists (py "spammer"). split; [reflexivity|].
    apply (bool_decide_unpack _). vm_compute. reflexivity.
Defined.

(** The same message from a sender who is not excluded is answered. *)
Example other_user_gets_a_reply :
  let O := Sample.outside Sample.gadget Sample.unavailable (Sample.widget None) in
  let user := {| telegram.id := 9; telegram.username := Some (py "buyer") |} in
  let update := {|
    telegram.message :=
      Some (Sample.message "check this https://www.amazon.com/dp/B000123ABC/ref=x");
    telegram.effective_user := Some user |} in
  @modify_link Sample.latin1 nat O Sample.config update (Eff.St 0 [])
  = (Returns tt,
     Eff.St 2 [telegram.reply_text
                 (py "<b>Widget</b>" ++ [10%N] ++ py "💸 Precio: $9.99" ++ [10%N]
                    ++ py "📝 Producto de Amazon" ++ [10%N]
                    ++ py "🔗 https://www.amazon.es/dp/B000123ABC?tag=tag-21")
                 (Some (py "HTML"))]).
Proof. vm_compute. reflexivity. Qed.

(* --------------------------------------------------------------------- *)
(** ** Which URLs a handler accepts *)
(* --------------------------------------------------------------------- *)

Lemma startswith_spec p s :
  Text.startswith p s = true <-> exists post, s = p ++ post.
Proof.
  revert s. induction p as [|x p IH]; intros s; simpl.
  - split; [by exists s|done].
  - destruct s as [|y s].
    + split; [done|]. by intros (post & [=]).
    + rewrite andb_true_iff, N.eqb_eq, IH. split.
      * intros [-> (post & ->)]. by exists post.
      * intros (post & [= -> ->]). split; [done|]. by exists post.
Qed.

Lemma contains_spec needle hay :
  Text.contains needle hay = true <-> occurs_in needle hay.
Proof.
  unfold occurs_in. induction hay as [|c hay IH]; simpl.
  - rewrite orb_false_r, startswith_spec. split.
    + intros (post & ->). by exists [], post.
    + intros (pre & post & Heq). symmetry in Heq.
      apply app_eq_nil in Heq as [-> Heq]. by exists post.
  - rewrite orb_true_iff, startswith_spec, IH. split.
    + intros [(post & ->)|(pre & post & ->)].
      * by exists [], post.
      * by exists (c :: pre), post.
    + intros ([|x pre] & post & Heq); simpl in Heq.
      * left. by exists post.
      * injection Heq as -> ->. right. by exists pre, post.
Qed.

(** X1. A handler accepts a URL exactly when its marker occurs
    somewhere in the text of the URL, host or not: [aliexpress.com] for
    the AliExpress handler, [amazon.] for the Amazon handler. *)
Theorem can_handle_substring :
  (forall self url,
      AliexpressAPIHandler.can_handle self url = true <->
      occurs_in (py "aliexpress.com") url)
  /\ (forall self url,
        AmazonAPIHandler.can_handle self url = true <-> occurs_in (py "amazon.") url).
Proof. split; intros self url; apply contains_spec. Qed.

(* --------------------------------------------------------------------- *)
(** ** The URLs of a message *)
(* --------------------------------------------------------------------- *)

(** With a continuation that accepts everything, [p*] takes the whole
    run of the class and nothing else. *)
Lemma star_run p s :
  exists a rest,
    Re.star p s (fun r => Some r) = Some rest
    /\ s = a ++ rest /\ forallb p a = true /\ Re.stops p rest.
Proof.
  induction s as [|c s IH]; simpl.
  - by exists [], [].
  - destruct (p c) eqn:Hc.
    + destruct IH as (a & rest & -> & -> & Ha & Hstop).
      exists (c :: a), rest. simpl. by rewrite Hc, Ha.
    + exists [], (c :: s). by simpl.
Qed.

Lemma star_whole_run p a rest :
  forallb p a = true -> Re.stops p rest ->
  Re.star p (a ++ rest) (fun r => Some r) = Some rest.
Proof.
  intros Ha Hstop. induction a as [|c a IH]; simpl.
  - destruct rest as [|c rest]; [done|]. simpl in *. by rewrite Hstop.
  - simpl in Ha. apply andb_true_iff in Ha as [Hc Ha]. by rewrite Hc, (IH Ha).
Qed.

Lemma findall_nil (m : str -> option str) s :
  Re.findall m 0 s = [] <-> forall pre s', s = pre ++ s' -> m s' = None.
Proof.
  induction s as [|c s IH]; simpl.
  - destruct (m []) as [rest|] eqn:E.
    + split; [done|]. intros Hall. by rewrite (Hall [] []) in E.
    + split; [|done]. intros _ pre s' Heq. symmetry in Heq.
      by apply app_eq_nil in Heq as [-> ->].
  - destruct (m (c :: s)) as [rest|] eqn:E.
    + split; [done|]. intros Hall. by rewrite (Hall [] (c :: s)) in E.
    + rewrite IH. split.
      * intros Hall [|x pre] s' Heq; simpl in Heq.
        -- by subst s'.
        -- injection Heq as -> ->. by apply (Hall pre).
      * intros Hall pre s' ->. by apply (Hall (c :: pre)).
Qed.

Lemma findall_skip_all (m : str -> option str) s :
  m [] = None -> Re.findall m (length s) s = [].
Proof.
  intros Hm. induction s as [|c s IH]; simpl; [by rewrite Hm|done].
Qed.

Section ExtractUrls.
Context `{UnicodeData}.

(** The pattern of the URL at the head of a text: it takes the scheme
    and the whole run of URL characters that follows. *)
Lemma url_at_spec s rest :
  url_at s = Some rest <->
  exists url, s = url ++ rest /\ url_shape url /\ Re.stops url_char rest.
Proof.
  assert (Hbody : forall s2,
            Re.lit (py "://") s2
              (fun s3 => Re.plus url_char s3 (fun rest0 => Some rest0)) = Some rest <->
            exists body, s2 = py "://" ++ body ++ rest
                         /\ body <> [] /\ forallb url_char body = true
                         /\ Re.stops url_char rest).
  { intros s2. split.
    - intros (s3 & -> & Hplus)%ReFacts.lit_Some. unfold Re.plus in Hplus.
      apply ReFacts.chr_Some in Hplus as (c & s3' & -> & Hc & Hstar).
      destruct (star_run url_char s3') as (a & rest' & Hrun & -> & Ha & Hstop).
      rewrite Hrun in Hstar. injection Hstar as ->.
      exists (c :: a). repeat split; [done| |done]. simpl. by rewrite Hc, Ha.
    - intros (body & -> & Hne & Hb & Hstop). rewrite ReFacts.lit_app.
      destruct body as [|c a]; [done|]. simpl in Hb.
      apply andb_true_iff in Hb as [Hc Ha].
      unfold Re.plus, Re.chr. simpl. rewrite Hc.
      by apply star_whole_run. }
  unfold url_at, url_shape. split.
  - intros (s1 & -> & Hopt)%ReFacts.lit_Some.
    unfold Re.opt, Re.alt in Hopt.
    destruct (Re.lit (py "s") s1 _) as [r|] eqn:Es.
    + apply (inj Some) in Hopt as ->.
      apply ReFacts.lit_Some in Es as (s2 & -> & (body & -> & Hne & Hb & Hstop)%Hbody).
      exists (py "https://" ++ body). split; [by eval_py|]. split; [|done].
      exists (py "https://"), body. auto.
    + apply Hbody in Hopt as (body & -> & Hne & Hb & Hstop).
      exists (py "http://" ++ body). split; [by eval_py|]. split; [|done].
      exists (py "http://"), body. auto.
  - intros (url & -> & (scheme & body & -> & [-> | ->] & Hne & Hb) & Hstop).
    + replace ((py "http://" ++ body) ++ rest)
        with (py "http" ++ (py "://" ++ body ++ rest)) by (eval_py; by rewrite <- ?app_assoc).
      rewrite ReFacts.lit_app. unfold Re.opt, Re.alt.
      assert (Hk : Re.lit (py "://") (py "://" ++ body ++ rest)
                  (fun s3 => Re.plus url_char s3 (fun rest0 => Some rest0)) = Some rest).
      { apply Hbody. by exists body. }
      destruct (Re.lit (py "s") _ _) as [r|] eqn:Es; [|exact Hk].
      exfalso. apply ReFacts.lit_Some in Es as (s2 & Es & _). by eval_py.
    + replace ((py "https://" ++ body) ++ rest)
        with (py "http" ++ py "s" ++ (py "://" ++ body ++ rest))
        by (eval_py; by rewrite <- ?app_assoc).
      rewrite ReFacts.lit_app. unfold Re.opt, Re.alt. rewrite ReFacts.lit_app.
      assert (Hk : Re.lit (py "://") (py "://" ++ body ++ rest)
                  (fun s3 => Re.plus url_char s3 (fun rest0 => Some rest0)) = Some rest).
      { apply Hbody. by exists body. }
      by rewrite Hk.
Qed.

Lemma extracted_url_occurs text url :
  url ∈ extract_urls text -> occurs_in url text.
Proof.
  unfold extract_urls.
  intros (pre & s' & rest & -> & Hm & ->)%ReFacts.findall_elem.
  apply url_at_spec in Hm as (url & -> & _).
  rewrite ReFacts.between_app. by exists pre, rest.
Qed.

(** X2. Every URL that the dispatcher takes from a message is
    [http://] or [https://] followed by at least one URL character,
    stands in the text, and is not cut short: what follows it in the
    text does not start with a URL character. *)
Theorem extracted_url_shape text url :
  url ∈ extract_urls text ->
  url_shape url
  /\ exists pre rest, text = pre ++ url ++ rest /\ Re.stops url_char rest.
Proof.
  unfold extract_urls.
  intros (pre & s' & rest & -> & Hm & ->)%ReFacts.findall_elem.
  apply url_at_spec in Hm as (url & -> & Hshape & Hstop).
  rewrite ReFacts.between_app. split; [done|]. by exists pre, rest.
Qed.

(** X3. No URL is taken from a message exactly when no text of the
    shape of a URL occurs in it: nowhere does [http://] or [https://]
    stand before a URL character. *)
Theorem no_url_extracted text :
  extract_urls text = [] <->
  forall url, url_shape url -> ~ occurs_in url text.
Proof.
  unfold extract_urls. rewrite findall_nil. split.
  - intros Hnone url (scheme & body & -> & Hscheme & Hne & Hb) (pre & post & ->).
    destruct body as [|c a]; [done|]. simpl in Hb.
    apply andb_true_iff in Hb as [Hc Ha].
    destruct (star_run url_char (a ++ post)) as (a' & rest & _ & Heq & Ha' & Hstop).
    assert (Hm : url_at ((scheme ++ c :: a') ++ rest) = Some rest).
    { apply url_at_spec. exists (scheme ++ c :: a'). split; [done|].
      split; [|done]. exists scheme, (c :: a'). repeat split; [done|done|].
      simpl. by rewrite Hc, Ha'. }
    rewrite (Hnone pre ((scheme ++ c :: a') ++ rest)) in Hm; [done|].
    rewrite <- !app_assoc. simpl. by rewrite Heq.
  - intros Hnone pre s' ->.
    destruct (url_at s') as [rest|] eqn:Hm; [|done]. exfalso.
    apply url_at_spec in Hm as (url & -> & Hshape & _).
    apply (Hnone url Hshape). by exists pre, rest.
Qed.

(** X4. A message that is one URL and nothing else gives that URL,
    whole and once. *)
Theorem extract_urls_of_url url :
  url_shape url -> extract_urls url = [url].
Proof.
  intros Hshape. unfold extract_urls.
  assert (Hm : url_at url = Some []).
  { rewrite <- (app_nil_r url) at 1. apply url_at_spec. by exists url. }
  destruct url as [|c s].
  { destruct Hshape as (scheme & body & Heq & [-> | ->] & _); by eval_py. }
  cbn [Re.findall]. rewrite Hm. f_equal.
  - rewrite <- (app_nil_r (c :: s)) at 1. apply ReFacts.between_app.
  - replace (length (c :: s) - length (@nil N) - 1) with (length s) by (simpl; lia).
    apply findall_skip_all. unfold url_at. by eval_py.
Qed.
End ExtractUrls.

Lemma extracted_url_shape_witness :
  let text := py "see https://example.com/page, and more" in
  let url := py "https://example.com/page" in
  @url_shape Sample.latin1 url
  /\ exists pre rest, text = pre ++ url ++ rest /\ Re.stops (@url_char Sample.latin1) rest.
Proof.
  intros text url. apply (@extracted_url_shape Sample.latin1 text url).
  apply (bool_decide_unpack _). vm_compute. reflexivity.
Defined.

Lemma extract_urls_of_url_witness :
  let url := py "http://s.click.aliexpress.com/e/_abc?x=1" in
  @extract_urls Sample.latin1 url = [url].
Proof.
  intros url. apply (@extract_urls_of_url Sample.latin1 url).
  exists (py "http://"), (py "s.click.aliexpress.com/e/_abc?x=1").
  split; [vm_compute; reflexivity|]. split; [by left|].
  split; [vm_compute; discriminate|vm_compute; reflexivity].
Defined.

(* --------------------------------------------------------------------- *)
(** ** AliExpress: the signed request and its answer *)
(* --------------------------------------------------------------------- *)

Lemma decimal_digits_encodable fuel n acc :
  forallb UTF8.encodable acc = true ->
  forallb UTF8.encodable (Text.decimal_digits fuel n acc) = true.
Proof.
  revert n acc. induction fuel as [|fuel IH]; intros n acc Hacc; simpl; [done|].
  assert (Hd : forallb UTF8.encodable (Text.digit_char (n mod 10) :: acc) = true).
  { simpl. rewrite Hacc, andb_true_r. unfold UTF8.encodable, Text.digit_char.
    apply orb_true_iff. left. apply N.ltb_lt.
    pose proof (N.mod_upper_bound n 10). lia. }
  destruct (n <? 10)%N; [done|]. by apply IH.
Qed.

(** [str(n)] is encodable text. *)
Lemma str_of_int_encodable z : forallb UTF8.encodable (Text.str_of_int z) = true.
Proof.
  unfold Text.str_of_int. cbv zeta.
  pose proof (decimal_digits_encodable
                (S (N.to_nat (N.log2 (Z.abs_N z)))) (Z.abs_N z) [] eq_refl) as Hd.
  destruct (z <? 0)%Z; [|done]. cbn [forallb].
  apply andb_true_iff. split; [done|exact Hd].
Qed.

(** The three parameters, sorted: [app_key], [productId], [timestamp]. *)
Lemma unsigned_params_sorted self product_id timestamp :
  sorted (map_to_list (unsigned_params self product_id timestamp))
  = [ (py "app_key", AliexpressAPIHandler.api_key self);
      (py "productId", product_id);
      (py "timestamp", timestamp) ].
Proof.
  apply sorted_unique.
  - unfold unsigned_params.
    rewrite map_to_list_insert.
    2:{ rewrite !lookup_insert_ne by (eval_py; discriminate). apply lookup_empty. }
    rewrite map_to_list_insert.
    2:{ rewrite !lookup_insert_ne by (eval_py; discriminate). apply lookup_empty. }
    rewrite map_to_list_insert by apply lookup_empty.
    rewrite map_to_list_empty.
    apply (Permutation_rev [_; _; _]).
  - unfold in_key_order. repeat constructor; vm_compute; reflexivity.
Qed.

Lemma forallb_part {A} (p : A -> bool) pre mid post :
  forallb p (pre ++ mid ++ post) = true -> forallb p mid = true.
Proof. rewrite !forallb_app, !andb_true_iff. tauto. Qed.

Section AliexpressRequest.
Context `{UnicodeData} {W : Type} `{Outside W}.

Lemma generate_signature_request self product_id timestamp :
  AliexpressAPIHandler._generate_signature self
    (py "/openapi/param2/2/portals.open/api.getPromotionProductDetail/")
    (unsigned_params self product_id timestamp)
  = MD5.hexdigest <$> UTF8.encode (signed_text self product_id timestamp).
Proof.
  unfold AliexpressAPIHandler._generate_signature.
  rewrite unsigned_params_sorted. cbn [flat_map fst snd].
  unfold signed_text. by rewrite app_nil_r, <- !app_assoc.
Qed.

Lemma extract_product_id_nonempty url product_id :
  AliexpressAPIHandler.extract_product_id url = Some product_id -> product_id <> [].
Proof. by intros (n & (pre & post & _ & _ & Hne & _) & _)%extract_product_id_Some. Qed.

Lemma product_id_in_url url product_id :
  AliexpressAPIHandler.extract_product_id url = Some product_id ->
  exists pre post, url = pre ++ product_id ++ post.
Proof.
  intros (n & (pre & post & -> & _) & _)%extract_product_id_Some.
  exists (pre ++ py "/item/"), (py ".html" ++ post). by rewrite <- !app_assoc.
Qed.

(** The signed text is encodable when the secret, the key and the
    product id are: the rest of it is ASCII. *)
Lemma signed_text_encodable self product_id z :
  forallb UTF8.encodable
    (AliexpressAPIHandler.secret self ++ AliexpressAPIHandler.api_key self ++ product_id)
  = forallb UTF8.encodable (signed_text self product_id (Text.str_of_int z)).
Proof.
  unfold signed_text. rewrite !forallb_app, str_of_int_encodable.
  eval_py. simpl.
  destruct (forallb _ (AliexpressAPIHandler.secret self));
    destruct (forallb _ (AliexpressAPIHandler.api_key self));
    destruct (forallb _ product_id); reflexivity.
Qed.

(** From [get_product_info] for a URL with a product id to the request:
    the clock is read and the parameters are signed. *)
Ltac sign_request self st Hid Henc :=
  pose proof (extract_product_id_nonempty _ _ Hid);
  unfold AliexpressAPIHandler.get_product_info; rewrite Hid;
  match type of Hid with
  | _ = Some ?product_id => destruct product_id as [|? ?]; [done|]
  end;
  unfold Eff.bind at 1, Eff.call at 1;
  destruct (time_ms (Eff.world st)) as [? ?]; simpl;
  match goal with
  | |- context [<[py "productId" := ?product_id]> _] =>
      match goal with
      | |- context [Text.str_of_int ?ts] =>
          fold (unsigned_params self product_id (Text.str_of_int ts));
          unfold Eff.bind at 1, Eff.lift at 1;
          rewrite generate_signature_request; unfold UTF8.encode;
          rewrite <- signed_text_encodable, Henc; simpl;
          try fold (signed_params self product_id (Text.str_of_int ts))
      end
  end.

(** X5. For a URL with a product id, and a secret, a key and an id that
    are encodable text, [get_product_info] reads the clock, sends one
    request to the API, with the timeout of ten seconds and the
    parameters [app_key], [productId], [timestamp] and [sign], and
    returns: no exception leaves it, and it sends no reply. The
    signature is the MD5 digest of
    [secret path app_key<key> productId<id> timestamp<ms> secret]; the
    signature itself is not part of what is signed. *)
Theorem aliexpress_signed_request self url product_id (st : Eff.st W) :
  AliexpressAPIHandler.extract_product_id url = Some product_id ->
  forallb UTF8.encodable
    (AliexpressAPIHandler.secret self ++ AliexpressAPIHandler.api_key self ++ product_id)
  = true ->
  let clock := time_ms (Eff.world st) in
  let answer :=
    requests_get AliexpressAPIHandler.BASE_URL
      (Some (signed_params self product_id (Text.str_of_int clock.1)))
      (Some 10%Z) clock.2 in
  exists product,
    AliexpressAPIHandler.get_product_info self url st
    = (Returns product, Eff.St answer.2 (Eff.outbox st)).
Proof.
  intros Hid Henc clock answer. subst answer clock.
  sign_request self st Hid Henc.
  unfold Eff.try_, Eff.bind, Eff.call_raising, Eff.lift, Eff.ret.
  destruct (requests_get _ _ _ _) as [[response|e] w2]; simpl; [|eauto].
  repeat case_match; simplify_eq/=; eauto.
Qed.

(** X6. The product is found exactly when the request returns a
    response whose status is no error (not 400 to 599), whose body is a
    JSON object, and whose [result] is an object too; its fields are
    then the values of [productTitle], [productMainImageUrl],
    [salePrice], [originalPrice] and [productDescription], [None] for
    one that is missing. A failed request, an error status, a body that
    is no JSON object, or a [result] that is missing or no object, give
    no product. *)
Theorem aliexpress_product_found self url product_id (st : Eff.st W) product :
  AliexpressAPIHandler.extract_product_id url = Some product_id ->
  forallb UTF8.encodable
    (AliexpressAPIHandler.secret self ++ AliexpressAPIHandler.api_key self ++ product_id)
  = true ->
  let clock := time_ms (Eff.world st) in
  let answer :=
    requests_get AliexpressAPIHandler.BASE_URL
      (Some (signed_params self product_id (Text.str_of_int clock.1)))
      (Some 10%Z) clock.2 in
  (AliexpressAPIHandler.get_product_info self url st).1 = Returns (Some product) <->
  exists response entries fields,
    answer.1 = Returns response
    /\ (requests.status_code response < 400 \/ 600 <= requests.status_code response)%Z
    /\ requests.json response = Returns (requests.DataDict entries)
    /\ entries !! py "result" = Some (requests.ResultDict fields)
    /\ product = {|
         title := default VNone (fields !! py "productTitle");
         image_url := default VNone (fields !! py "productMainImageUrl");
         price := default VNone (fields !! py "salePrice");
         old_price := default VNone (fields !! py "originalPrice");
         description :=
           or_ (default VNone (fields !! py "productDescription"))
               (VStr (py "Producto en AliExpress"));
       |}.
Proof.
  intros Hid Henc clock answer. subst answer clock.
  sign_request self st Hid Henc.
  unfold Eff.try_, Eff.bind, Eff.call_raising, Eff.lift, Eff.ret.
  destruct (requests_get _ _ _ _) as [[response|e] w2]; simpl.
  2:{ split; [done|]. by intros (r & entries & fields & [=] & _). }
  unfold requests.raise_for_status.
  destruct ((400 <=? requests.status_code response)%Z
            && (requests.status_code response <? 600)%Z) eqn:Hstatus; simpl.
  { split; [done|]. intros (r & entries & fields & [= <-] & Hs & _).
    apply andb_true_iff in Hstatus as [?%Z.leb_le ?%Z.ltb_lt]. lia. }
  assert (Hs : (requests.status_code response < 400
                \/ 600 <= requests.status_code response)%Z).
  { apply andb_false_iff in Hstatus as [?%Z.leb_gt | ?%Z.ltb_ge]; lia. }
  destruct (requests.json response) as [[entries|b]|e] eqn:Hjson; simpl.
  - destruct (entries !! py "result") as [[fields|]|] eqn:Hres; simpl.
    + split.
      * intros [= <-]. by exists response, entries, fields.
      * intros (r & entries' & fields' & [= <-] & _ & Hj & Hr & ->).
        rewrite Hjson in Hj. simplify_eq. done.
    + split; [done|]. intros (r & entries' & fields' & [= <-] & _ & Hj & Hr & _).
      rewrite Hjson in Hj. simplify_eq.
    + split; [done|]. intros (r & entries' & fields' & [= <-] & _ & Hj & Hr & _).
      rewrite Hjson in Hj. simplify_eq.
  - split.
    + intros Hp. exfalso. destruct b as [[]|]; simplify_eq/=.
    + intros (r & entries' & fields' & [= <-] & _ & Hj & _).
      rewrite Hjson in Hj. simplify_eq.
  - split; [done|]. intros (r & entries' & fields' & [= <-] & _ & Hj & _).
    rewrite Hjson in Hj. simplify_eq.
Qed.

(** X7. A [result] without [productTitle] and [salePrice] is a product
    all the same, and the reply shows the two as the word [None]:
    the caption starts with [<b>None</b>] and [Precio: None]. *)
Theorem missing_fields_shown_as_None
    self url product_id (st : Eff.st W) response entries fields :
  AliexpressAPIHandler.extract_product_id url = Some product_id ->
  forallb UTF8.encodable
    (AliexpressAPIHandler.secret self ++ AliexpressAPIHandler.api_key self ++ product_id)
  = true ->
  let clock := time_ms (Eff.world st) in
  let answer :=
    requests_get AliexpressAPIHandler.BASE_URL
      (Some (signed_params self product_id (Text.str_of_int clock.1)))
      (Some 10%Z) clock.2 in
  answer.1 = Returns response ->
  (requests.status_code response < 400 \/ 600 <= requests.status_code response)%Z ->
  requests.json response = Returns (requests.DataDict entries) ->
  entries !! py "result" = Some (requests.ResultDict fields) ->
  fields !! py "productTitle" = None ->
  fields !! py "salePrice" = None ->
  exists product,
    (AliexpressAPIHandler.get_product_info self url st).1 = Returns (Some product)
    /\ forall link, exists rest,
         caption_of product link
         = py "<b>None</b>" ++ [10%N] ++ py "💸 Precio: None" ++ [10%N] ++ rest.
Proof.
  intros Hid Henc clock answer Hanswer Hstatus Hjson Hresult Htitle Hprice.
  subst answer clock.
  sign_request self st Hid Henc.
  unfold Eff.try_, Eff.bind, Eff.call_raising, Eff.lift, Eff.ret.
  destruct (requests_get _ _ _ _) as [o w2]. simpl in Hanswer. subst o. simpl.
  unfold requests.raise_for_status.
  replace ((400 <=? requests.status_code response)%Z
           && (requests.status_code response <? 600)%Z) with false.
  2:{ symmetry. apply andb_false_iff.
      destruct Hstatus; [left; by apply Z.leb_gt | right; by apply Z.ltb_ge]. }
  simpl. rewrite Hjson. simpl. rewrite Hresult. simpl.
  eexists. split; [reflexivity|]. intros link.
  unfold caption_of. simpl. rewrite Htitle, Hprice. simpl.
  destruct (truthy (or_ _ _)); destruct (truthy (default _ _));
    eexists; eval_py; cbn [app]; reflexivity.
Qed.

(** The signature is computed before the [try]: what [encode] raises
    leaves [get_product_info], after the clock was read and before any
    request. *)
Lemma unencodable_request_raises self url product_id (st : Eff.st W) :
  AliexpressAPIHandler.extract_product_id url = Some product_id ->
  forallb UTF8.encodable
    (AliexpressAPIHandler.secret self ++ AliexpressAPIHandler.api_key self ++ product_id)
  = false ->
  AliexpressAPIHandler.get_product_info self url st
  = (Raises UnicodeEncodeError, Eff.St (time_ms (Eff.world st)).2 (Eff.outbox st)).
Proof.
  intros Hid Henc. by sign_request self st Hid Henc.
Qed.

Lemma aliexpress_returns self url :
  forallb UTF8.encodable (AliexpressAPIHandler.secret self) = true ->
  forallb UTF8.encodable (AliexpressAPIHandler.api_key self) = true ->
  forallb UTF8.encodable url = true ->
  never_raises (W:=W) (AliexpressAPIHandler.get_product_info self url).
Proof.
  intros Hsecret Hkey Hurl st.
  destruct (AliexpressAPIHandler.extract_product_id url) as [product_id|] eqn:Hid.
  2:{ unfold AliexpressAPIHandler.get_product_info. rewrite Hid. by eexists _, _. }
  destruct (product_id_in_url _ _ Hid) as (pre & post & ->).
  apply forallb_part in Hurl.
  assert (Henc : forallb UTF8.encodable
                   (AliexpressAPIHandler.secret self
                      ++ AliexpressAPIHandler.api_key self ++ product_id) = true).
  { rewrite !forallb_app, !andb_true_iff. auto. }
  sign_request self st Hid Henc.
  unfold Eff.try_, Eff.bind, Eff.call_raising, Eff.lift, Eff.ret.
  destruct (requests_get _ _ _ _) as [[response|e] w2]; simpl; [|by eexists _, _].
  repeat case_match; simplify_eq/=; by eexists _, _.
Qed.

(** X8. A secret, a key or a product id that is no encodable text (a
    lone surrogate) makes the signature raise [UnicodeEncodeError], and
    nothing catches it: for an AliExpress URL with a product id the
    handler raises after reading the clock, without a request, and the
    loop over the URLs of the message ends there, without a reply for
    this URL or for the ones after it. *)
Theorem unencodable_secret_stops_dispatch config url product_id (st : Eff.st W) :
  AliexpressAPIHandler.extract_product_id url = Some product_id ->
  occurs_in (py "aliexpress.com") url ->
  forallb UTF8.encodable
    (aliexpress_app_secret config ++ aliexpress_app_key config ++ product_id) = false ->
  let st' := Eff.St (time_ms (Eff.world st)).2 (Eff.outbox st) in
  AliexpressAPIHandler.get_product_info (AliexpressAPIHandler.__init__ config) url st
  = (Raises UnicodeEncodeError, st')
  /\ forall api later,
       for_urls (handlers_of config api) (url :: later) st
       = (Raises UnicodeEncodeError, st').
Proof.
  intros Hid Hali%contains_spec Henc st'.
  assert (Hraise : AliexpressAPIHandler.get_product_info
                     (AliexpressAPIHandler.__init__ config) url st
                   = (Raises UnicodeEncodeError, st')).
  { by apply (unencodable_request_raises _ _ product_id). }
  split; [done|]. intros api later. simpl.
  unfold AliexpressAPIHandler.can_handle. rewrite Hali.
  unfold Eff.bind. by rewrite Hraise.
Qed.
End AliexpressRequest.

Lemma aliexpress_signed_request_witness :
  let O := Sample.outside Sample.gadget Sample.shortened (Sample.widget None) in
  exists product,
    @AliexpressAPIHandler.get_product_info Sample.latin1 nat O Sample.aliexpress
      (py "https://es.aliexpress.com/item/1005006123456.html") (Eff.St 0 [])
    = (Returns product, Eff.St 2 []).
Proof.
  intros O.
  refine (@aliexpress_signed_request Sample.latin1 nat O Sample.aliexpress
            (py "https://es.aliexpress.com/item/1005006123456.html")
            (py "1005006123456") (Eff.St 0 []) _ _).
  - vm_compute. reflexivity.
  - vm_compute. reflexivity.
Defined.

Lemma aliexpress_product_found_witness :
  let O := Sample.outside Sample.gadget Sample.shortened (Sample.widget None) in
  (@AliexpressAPIHandler.get_product_info Sample.latin1 nat O Sample.aliexpress
     (py "https://es.aliexpress.com/item/1005006123456.html") (Eff.St 0 [])).1
  = Returns (Some {|
      title := VStr (py "Gadget");
      image_url := VNone;
      price := VStr (py "3,50");
      old_price := VNone;
      description := VStr (py "Producto en AliExpress");
    |}).
Proof.
  intros O.
  refine (proj2 (@aliexpress_product_found Sample.latin1 nat O Sample.aliexpress
                   (py "https://es.aliexpress.com/item/1005006123456.html")
                   (py "1005006123456") (Eff.St 0 []) _ _ _) _).
  - vm_compute. reflexivity.
  - vm_compute. reflexivity.
  - exists Sample.gadget_response,
      {[ py "result" := requests.ResultDict Sample.gadget_fields ]}, Sample.gadget_fields.
    split; [vm_compute; reflexivity|]. split; [left; vm_compute; reflexivity|].
    split; [vm_compute; reflexivity|]. split; vm_compute; reflexivity.
Defined.

Lemma missing_fields_shown_as_None_witness :
  let O := Sample.outside Sample.bare Sample.shortened (Sample.widget None) in
  exists product,
    (@AliexpressAPIHandler.get_product_info Sample.latin1 nat O Sample.aliexpress
       (py "https://es.aliexpress.com/item/1005006123456.html") (Eff.St 0 [])).1
    = Returns (Some product)
    /\ forall link, exists rest,
         caption_of product link
         = py "<b>None</b>" ++ [10%N] ++ py "💸 Precio: None" ++ [10%N] ++ rest.
Proof.
  intros O.
  refine (@missing_fields_shown_as_None Sample.latin1 nat O Sample.aliexpress
            (py "https://es.aliexpress.com/item/1005006123456.html")
            (py "1005006123456") (Eff.St 0 [])
            {| requests.status_code := 200;
               requests.text := [];
               requests.json :=
                 Returns (requests.DataDict {[ py "result" := requests.ResultDict ∅ ]}) |}
            {[ py "result" := requests.ResultDict ∅ ]} ∅ _ _ _ _ _ _ _ _).
  - vm_compute. reflexivity.
  - vm_compute. reflexivity.
  - vm_compute. reflexivity.
  - left. vm_compute. reflexivity.
  - vm_compute. reflexivity.
  - vm_compute. reflexivity.
  - vm_compute. reflexivity.
  - vm_compute. reflexivity.
Defined.

Lemma unencodable_secret_stops_dispatch_witness :
  let O := Sample.outside Sample.gadget Sample.shortened (Sample.widget None) in
  let url := py "https://es.aliexpress.com/item/1005006123456.html" in
  @for_urls nat O (@handlers_of Sample.latin1 nat O Sample.surrogate_config Sample.client)
    [url; py "https://www.amazon.es/dp/B08N5WRWNW"] (Eff.St 0 [])
  = (Raises UnicodeEncodeError, Eff.St 1 []).
Proof.
  intros O url.
  refine (proj2 (@unencodable_secret_stops_dispatch Sample.latin1 nat O
                   Sample.surrogate_config url (py "1005006123456") (Eff.St 0 []) _ _ _)
            Sample.client [py "https://www.amazon.es/dp/B08N5WRWNW"]).
  - vm_compute. reflexivity.
  - exists (py "https://es."), (py "/item/1005006123456.html"). vm_compute. reflexivity.
  - vm_compute. reflexivity.
Defined.

(* --------------------------------------------------------------------- *)
(** ** AliExpress: the affiliate link *)
(* --------------------------------------------------------------------- *)

Section AliexpressLink.
Context `{UnicodeData}.

Lemma item_path_no_question d :
  forallb Re.decimal d = true ->
  forallb (fun c => negb (c =? 63)%N) (py "/item/" ++ d ++ py ".html") = true.
Proof.
  intros Hd. rewrite !forallb_app. eval_py. simpl. rewrite andb_true_r.
  induction d as [|c d IH]; simpl in *; [done|].
  apply andb_true_iff in Hd as [Hc Hd]. rewrite (IH Hd), andb_true_r.
  destruct (N.eqb_spec c 63) as [->|]; [|done]. by vm_compute in Hc.
Qed.

(** X9. The affiliate link of an AliExpress URL with a product id has
    the same product id: the query that is appended opens with a
    question mark, which no path [/item/<digits>.html] runs over, so
    the leftmost such path of the link is the one of the URL. *)
Theorem aliexpress_link_keeps_product_id (self : AliexpressAPIHandler.t) url product_id :
  AliexpressAPIHandler.extract_product_id url = Some product_id ->
  AliexpressAPIHandler.extract_product_id (AliexpressAPIHandler.create_affiliate_link self url)
  = Some product_id.
Proof.
  unfold AliexpressAPIHandler.create_affiliate_link.
  set (aff := aliexpress_aff_id (AliexpressAPIHandler.config self)).
  intros (n & (pre & post & Hurl & Hn & Hne & Hd) & Hmin)%extract_product_id_Some.
  apply extract_product_id_Some. exists n. split.
  { exists pre, (post ++ py "?aff_id=" ++ aff). rewrite Hurl.
    split; [by rewrite <- !app_assoc|done]. }
  intros n' d' (pre' & post' & Heq & Hn' & Hne' & Hd').
  destruct (decide (n <= n')) as [|Hlt]; [done|]. exfalso.
  assert (Hlen : n' < length url).
  { rewrite Hurl, length_app. lia. }
  assert (Hsplit : url = pre' ++ drop n' url).
  { rewrite <- (take_drop n' url) at 1. f_equal.
    apply (f_equal (take n')) in Heq.
    rewrite take_app_le in Heq by lia. rewrite Heq.
    rewrite <- Hn'. by rewrite take_app_length. }
  destruct (drop n' url) as [|x rest] eqn:Hdrop.
  { apply (f_equal length) in Hdrop. rewrite length_drop in Hdrop. simpl in Hdrop. lia. }
  rewrite Hsplit in Heq. rewrite <- app_assoc in Heq. apply app_inv_head in Heq.
  rewrite (app_assoc _ d'), (app_assoc _ (py ".html")) in Heq.
  rewrite <- (app_assoc _ d' (py ".html")) in Heq.
  apply app_eq_app in Heq as [l [[Hin Hsuffix]|[Hout Hsuffix]]].
  - (* the path lies within the URL *)
    assert (Hmatch : item_path_at url n' d').
    { exists pre', l. rewrite Hsplit at 1. rewrite Hin, <- !app_assoc. done. }
    specialize (Hmin _ _ Hmatch). lia.
  - (* the path would run over the question mark *)
    destruct l as [|y l].
    + rewrite app_nil_r in Hout.
      assert (Hmatch : item_path_at url n' d').
      { exists pre', []. rewrite Hsplit at 1. by rewrite <- Hout, app_nil_r. }
      specialize (Hmin _ _ Hmatch). lia.
    + assert (Hq : forallb (fun c => negb (c =? 63)%N) ((x :: rest) ++ y :: l) = true).
      { rewrite <- Hout. by apply item_path_no_question. }
      rewrite forallb_app in Hq. apply andb_true_iff in Hq as [_ Hq].
      revert Hsuffix. eval_py. intros [= <- _]. by simpl in Hq.
Qed.
End AliexpressLink.

Lemma aliexpress_link_keeps_product_id_witness :
  @AliexpressAPIHandler.extract_product_id Sample.latin1
    (AliexpressAPIHandler.create_affiliate_link Sample.aliexpress
       (py "https://es.aliexpress.com/item/1005006123456.html?spm=a2g0o"))
  = Some (py "1005006123456").
Proof.
  apply (@aliexpress_link_keeps_product_id Sample.latin1 Sample.aliexpress).
  vm_compute. reflexivity.
Defined.

(* --------------------------------------------------------------------- *)
(** ** Amazon: the lookup *)
(* --------------------------------------------------------------------- *)

Section AmazonLookup.
Context {W : Type} `{Outside W}.

Lemma amazon_returns self url :
  never_raises (W:=W) (AmazonAPIHandler.get_product_info self url).
Proof.
  intros st. unfold AmazonAPIHandler.get_product_info, Eff.try_, Eff.ret.
  destruct (_ st) as [[product|e] st']; by eexists _, _.
Qed.

(** X10. The Amazon handler always returns, whatever the API answers
    or raises, and sends no reply itself. Without an ASIN in the URL it
    answers [None] and the API is not called; with one, the API is
    called once, for that ASIN alone. *)
Theorem amazon_lookup_never_raises (self : AmazonAPIHandler.t) (url : str) (st : Eff.st W) :
  match AmazonAPIHandler.extract_asin url with
  | None => AmazonAPIHandler.get_product_info self url st = (Returns None, st)
  | Some asin =>
      exists product,
        AmazonAPIHandler.get_product_info self url st
        = (Returns product,
           Eff.St (get_items (AmazonAPIHandler.api self) [asin] (Eff.world st)).2
                  (Eff.outbox st))
  end.
Proof.
  unfold AmazonAPIHandler.get_product_info.
  destruct (AmazonAPIHandler.extract_asin url) as [asin|] eqn:Hasin; [|done].
  pose proof (extract_asin_shape _ _ Hasin) as [Hlen _].
  destruct asin as [|c asin]; [done|].
  unfold Eff.try_, Eff.bind, Eff.call_raising, Eff.lift, Eff.ret.
  destruct (get_items _ _ _) as [[response|e] w]; simpl; [|eauto].
  repeat case_match; simplify_eq/=; eauto.
Qed.

(** X11. The Amazon product is found exactly when the URL has an ASIN,
    the API returns for it, and the first item of the answer has all
    that the handler reads: its title, its large primary image, the
    price of its first listing and, if it has features, a first
    feature. The fields are then these values; the old price is the
    savings basis when that is truthy and [None] otherwise; the
    description is the first feature, or the placeholder for an item
    without features. Anything missing gives no product. *)
Theorem amazon_product_found self url (st : Eff.st W) product :
  (AmazonAPIHandler.get_product_info self url st).1 = Returns (Some product) <->
  exists asin response found item others info heading images primary large
         offers listing more amount,
    AmazonAPIHandler.extract_asin url = Some asin
    /\ (get_items (AmazonAPIHandler.api self) [asin] (Eff.world st)).1 = Returns response
    /\ paapi.items_result response = Some found
    /\ paapi.items found = Some (item :: others)
    /\ paapi.item_info item = Some info
    /\ paapi.title info = Some heading
    /\ paapi.images item = Some images
    /\ paapi.primary images = Some primary
    /\ paapi.large primary = Some large
    /\ paapi.offers item = Some offers
    /\ paapi.listings offers = Some (listing :: more)
    /\ paapi.price listing = Some amount
    /\ match paapi.features info with
       | None => description product = VStr (py "Producto de Amazon")
       | Some features =>
           exists rest, paapi.display_values features = Some (description product :: rest)
       end
    /\ title product = paapi.display_value heading
    /\ image_url product = paapi.url large
    /\ price product = paapi.display_amount amount
    /\ old_price product
       = (if truthy (paapi.savings_basis amount) then paapi.savings_basis amount else VNone).
Proof.
  unfold AmazonAPIHandler.get_product_info.
  destruct (AmazonAPIHandler.extract_asin url) as [asin|] eqn:Hasin.
  2:{ simpl. split; [done|].
      intros (? & ? & ? & ? & ? & ? & ? & ? & ? & ? & ? & ? & ? & ? & Hx & _).
      discriminate Hx. }
  pose proof (extract_asin_shape _ _ Hasin) as [Hlen _].
  destruct asin as [|c asin]; [done|].
  unfold Eff.try_, Eff.bind, Eff.call_raising, Eff.lift, Eff.ret.
  destruct (get_items _ _ _) as [[response|e] w] eqn:Hget; simpl.
  2:{ split; [done|].
      intros (? & ? & ? & ? & ? & ? & ? & ? & ? & ? & ? & ? & ? & ? & Hx & Hy & _).
      injection Hx as <-. by rewrite Hget in Hy. }
  split.
  - intros Hp.
    destruct response as [[[[[|item others]|]]|]]; simplify_eq/=.
    destruct (paapi.item_info item) as [info|] eqn:Hinfo; simplify_eq/=.
    destruct (paapi.title info) as [title|] eqn:Htitle; simplify_eq/=.
    destruct (paapi.images item) as [images|] eqn:Himages; simplify_eq/=.
    destruct (paapi.primary images) as [primary|] eqn:Hprimary; simplify_eq/=.
    destruct (paapi.large primary) as [large|] eqn:Hlarge; simplify_eq/=.
    destruct (paapi.offers item) as [offers|] eqn:Hoffers; simplify_eq/=.
    destruct (paapi.listings offers) as [[|listing more]|] eqn:Hlistings; simplify_eq/=.
    destruct (paapi.price listing) as [amount|] eqn:Hprice; simplify_eq/=.
    exists (c :: asin),
      {| paapi.items_result := Some {| paapi.items := Some (item :: others) |} |},
      {| paapi.items := Some (item :: others) |}, item, others, info, title, images,
      primary, large, offers, listing, more, amount.
    rewrite Hget. repeat (split; [done|]).
    destruct (paapi.features info) as [features|].
    + destruct (first (paapi.display_values features)) as [d|e] eqn:Hfirst;
        destruct (truthy (paapi.savings_basis amount)); simplify_eq/=.
      all: apply first_Returns in Hfirst as [rest ->]; split; [by exists rest|done].
    + destruct (truthy (paapi.savings_basis amount)); simplify_eq/=; done.
  - intros (a & response' & found & item & others & info & title & images & primary
            & large & offers & listing & more & amount
            & [= <-] & Hr & Hfound & Hitems & Hinfo & Htitle & Himages & Hprimary
            & Hlarge & Hoffers & Hlistings & Hprice & Hdesc & Ht & Hi & Hpr & Hold).
    rewrite Hget in Hr. injection Hr as <-.
    rewrite Hfound. simpl. rewrite Hitems. simpl.
    rewrite Hinfo. simpl. rewrite Htitle. simpl.
    rewrite Himages. simpl. rewrite Hprimary. simpl. rewrite Hlarge. simpl.
    rewrite Hoffers. simpl. rewrite Hlistings. simpl. rewrite Hprice. simpl.
    destruct product as [t i p o d]. simpl in *. subst t i p o.
    assert (Hd : match paapi.features info with
                 | Some features => first (paapi.display_values features)
                 | None => Returns (VStr (py "Producto de Amazon"))
                 end = Returns d).
    { destruct (paapi.features info) as [features|]; [|by subst d].
      destruct Hdesc as [rest ->]. done. }
    rewrite Hd. by destruct (truthy (paapi.savings_basis amount)).
Qed.
End AmazonLookup.

(* --------------------------------------------------------------------- *)
(** ** Amazon: the affiliate link of an affiliate link *)
(* --------------------------------------------------------------------- *)

Lemma search_cons_None {R} (m : str -> option R) c s :
  m (c :: s) = None -> Re.search m (c :: s) = Re.search m s.
Proof. intros Hm. simpl. by rewrite Hm. Qed.

Lemma search_here {R} (m : str -> option R) s r :
  m s = Some r -> Re.search m s = Some r.
Proof. intros Hm. destruct s; simpl; by rewrite Hm. Qed.

Lemma asin_at_not_slash c s :
  (c =? 47)%N = false -> AmazonAPIHandler.asin_at (c :: s) = None.
Proof.
  intros Hc. unfold AmazonAPIHandler.asin_at. eval_py. cbn [Re.lit]. unfold Re.chr at 1.
  by rewrite N.eqb_sym, Hc.
Qed.

Lemma asin_at_slash_other c s :
  AmazonAPIHandler.upper_or_digit c = false ->
  AmazonAPIHandler.asin_at (47%N :: c :: s) = None.
Proof.
  intros Hc. unfold AmazonAPIHandler.asin_at. eval_py. cbn [Re.lit]. unfold Re.chr at 1.
  simpl. unfold Re.chr at 1. by rewrite Hc.
Qed.

Lemma search_no_slash s rest :
  no_slash s ->
  Re.search AmazonAPIHandler.asin_at (s ++ rest) = Re.search AmazonAPIHandler.asin_at rest.
Proof.
  intros Hs. induction s as [|c s IH]; [done|].
  unfold no_slash in Hs. simpl in Hs. apply andb_true_iff in Hs as [Hc Hs].
  change ((c :: s) ++ rest) with (c :: (s ++ rest)).
  rewrite search_cons_None; [by apply IH|].
  apply asin_at_not_slash. by apply negb_true_iff.
Qed.

Lemma extract_asin_of_link country asin tag :
  no_slash country -> asin_shape asin ->
  AmazonAPIHandler.extract_asin
    (py "https://www.amazon." ++ country ++ py "/dp/" ++ asin ++ py "?tag=" ++ tag)
  = Some asin.
Proof.
  intros Hcountry Hasin. unfold AmazonAPIHandler.extract_asin.
  eval_py. cbn [app].
  repeat (rewrite search_cons_None;
          [|first [ apply asin_at_not_slash; reflexivity
                  | apply asin_at_slash_other; reflexivity ]]).
  rewrite search_no_slash by done.
  repeat (rewrite search_cons_None;
          [|first [ apply asin_at_not_slash; reflexivity
                  | apply asin_at_slash_other; reflexivity ]]).
  apply search_here. apply asin_at_spec.
  exists (py "?tag=" ++ tag). eval_py. split; [done|]. split; [done|].
  left. right. by eexists _, _.
Qed.

(** X12. With a country that holds no ['/'], the affiliate link of an
    Amazon URL has the ASIN of the URL, and no other; so the link of a
    link is the link itself. *)
Theorem amazon_link_keeps_asin (self : AmazonAPIHandler.t) (url : str) :
  no_slash (amazon_country (AmazonAPIHandler.config self)) ->
  AmazonAPIHandler.extract_asin (AmazonAPIHandler.create_affiliate_link self url)
  = AmazonAPIHandler.extract_asin url
  /\ AmazonAPIHandler.create_affiliate_link self
       (AmazonAPIHandler.create_affiliate_link self url)
     = AmazonAPIHandler.create_affiliate_link self url.
Proof.
  intros Hcountry.
  assert (Hkeep : AmazonAPIHandler.extract_asin
                    (AmazonAPIHandler.create_affiliate_link self url)
                  = AmazonAPIHandler.extract_asin url).
  { unfold AmazonAPIHandler.create_affiliate_link at 1.
    destruct (AmazonAPIHandler.extract_asin url) as [asin|] eqn:Hasin; [|done].
    pose proof (extract_asin_shape _ _ Hasin) as Hshape.
    destruct asin as [|c asin]; [by destruct Hshape|].
    by apply extract_asin_of_link. }
  split; [done|].
  unfold AmazonAPIHandler.create_affiliate_link at 1. rewrite Hkeep.
  unfold AmazonAPIHandler.create_affiliate_link.
  by destruct (AmazonAPIHandler.extract_asin url) as [[|c asin]|].
Qed.

Lemma amazon_link_keeps_asin_witness :
  let url := py "https://www.amazon.com/-/es/dp/B08N5WRWNW?tag=other-20&psc=1" in
  AmazonAPIHandler.extract_asin (AmazonAPIHandler.create_affiliate_link Sample.amazon url)
  = AmazonAPIHandler.extract_asin url
  /\ AmazonAPIHandler.create_affiliate_link Sample.amazon
       (AmazonAPIHandler.create_affiliate_link Sample.amazon url)
     = AmazonAPIHandler.create_affiliate_link Sample.amazon url.
Proof.
  intros url. apply (amazon_link_keeps_asin Sample.amazon url).
  vm_compute. reflexivity.
Defined.

(* --------------------------------------------------------------------- *)
(** ** The dispatcher: replies *)
(* --------------------------------------------------------------------- *)

Section Replies.
Context `{UnicodeData} {W : Type} `{Outside W}.

Lemma shorten_url_returns url (st : Eff.st W) :
  exists link st',
    shorten_url url st = (Returns link, st') /\ Eff.outbox st' = Eff.outbox st.
Proof.
  unfold shorten_url, Eff.try_, Eff.bind, Eff.call_raising, Eff.ret.
  destruct (requests_get _ _ _ _) as [[response|e] w]; simpl; eauto.
Qed.

(** X13. When the first handler that accepts a URL finds a product,
    its affiliate link is shortened and exactly one reply is sent, the
    product with that link, as a photo or as text; the handlers after
    it are not asked. *)
Theorem product_reply_ends_loop skipped h later url (st st1 : Eff.st W) product :
  Forall (cannot_handle url) skipped ->
  Handler.can_handle h url = true ->
  Handler.get_product_info h url st = (Returns (Some product), st1) ->
  exists link st2,
    shorten_url (Handler.create_affiliate_link h url) st1 = (Returns link, st2)
    /\ for_handlers (skipped ++ h :: later) url st
       = (Returns tt,
          Eff.St (Eff.world st2) (Eff.outbox st1 ++ [product_reply product link])).
Proof.
  intros Hskipped Hh Hp.
  destruct (shorten_url_returns (Handler.create_affiliate_link h url) st1)
    as (link & st2 & Hshort & Hout).
  exists link, st2. split; [done|].
  rewrite for_handlers_skip by done. simpl. rewrite Hh.
  unfold Eff.bind at 1. rewrite Hp. unfold Eff.bind at 1. rewrite Hshort.
  unfold product_reply. rewrite <- Hout.
  by destruct (truthy (image_url product)).
Qed.




Lemma handled_by_some_handler config api url :
  ~ Forall (cannot_handle url) (handlers_of (W:=W) config api) ->
  occurs_in (py "aliexpress.com") url \/ occurs_in (py "amazon.") url.
Proof.
  intros Hnot.
  destruct (Text.contains (py "aliexpress.com") url) eqn:Hali;
    [left; by apply contains_spec|].
  destruct (Text.contains (py "amazon.") url) eqn:Hamz;
    [right; by apply contains_spec|].
  exfalso. apply Hnot. by repeat constructor.
Qed.

(** X15. The bot sends a reply for an update only if the update has a
    message with a text that is not empty and a sender who is not
    excluded, and the text holds a URL in which [aliexpress.com] or
    [amazon.] occurs. For every other update nothing is sent, whether
    the Amazon client can be built or not. *)
Theorem reply_needs_handled_url config update (st : Eff.st W) :
  Eff.outbox (modify_link config update st).2 <> Eff.outbox st ->
  exists message text user,
    telegram.message update = Some message
    /\ telegram.text message = Some text /\ text <> []
    /\ telegram.effective_user update = Some user
    /\ truthy (is_user_excluded config user) = false
    /\ exists url,
         url ∈ extract_urls text
         /\ (occurs_in (py "aliexpress.com") url \/ occurs_in (py "amazon.") url).
Proof.
  unfold modify_link. intros Hdone.
  destruct (telegram.message update) as [message|]; [|done].
  destruct (telegram.text message) as [[|c text]|] eqn:Htext; [done| |done].
  destruct (telegram.effective_user update) as [user|]; [|done].
  destruct (truthy (is_user_excluded config user)) eqn:Hexcl; [done|].
  exists message, (c :: text), user. repeat (split; [done|]).
  rewrite process_link_handlers_unfold in Hdone.
  unfold prepare_message in Hdone. rewrite Htext in Hdone.
  destruct (new_client config (Eff.world st)) as [[api|e] w]; [|done].
  destruct (decide (Forall (fun url => Forall (cannot_handle url)
                                         (handlers_of (W:=W) config api))
                      (extract_urls (c :: text)))) as [Hall|Hsome].
  - by rewrite for_urls_unhandled in Hdone.
  - apply not_Forall_Exists in Hsome; [|apply _].
    apply Exists_exists in Hsome as (url & Hurl & Hnot).
    exists url. split; [done|]. by apply (handled_by_some_handler config api).
Qed.

Lemma for_handlers_returns handlers url :
  Forall (fun h => never_raises (Handler.get_product_info h url)) handlers ->
  never_raises (W:=W) (for_handlers handlers url).
Proof.
  induction 1 as [|h hs Hh _ IH]; intros st; simpl; [by eexists _, _|].
  destruct (Handler.can_handle h url); [|apply IH].
  unfold Eff.bind at 1. destruct (Hh st) as ([product|] & st1 & ->).
  - unfold Eff.bind at 1.
    destruct (shorten_url_returns (Handler.create_affiliate_link h url) st1)
      as (link & st2 & -> & _).
    destruct (truthy (image_url product)); by eexists _, _.
  - unfold Eff.bind at 1, Eff.send at 1. apply IH.
Qed.

Lemma for_urls_returns handlers urls :
  Forall (fun url => Forall (fun h => never_raises (Handler.get_product_info h url)) handlers)
         urls ->
  never_raises (W:=W) (for_urls handlers urls).
Proof.
  induction 1 as [|url urls Hurl _ IH]; intros st; simpl; [by eexists _, _|].
  unfold Eff.bind at 1.
  destruct (for_handlers_returns handlers url Hurl st) as ([] & st1 & ->).
  apply IH.
Qed.

(** With encodable texts the loop over the URLs returns, whatever client
    the handlers were built with. *)
Lemma for_urls_of_text_returns config api text (st : Eff.st W) :
  forallb UTF8.encodable (aliexpress_app_secret config) = true ->
  forallb UTF8.encodable (aliexpress_app_key config) = true ->
  forallb UTF8.encodable text = true ->
  exists st', for_urls (handlers_of config api) (extract_urls text) st = (Returns tt, st').
Proof.
  intros Hsecret Hkey Htext.
  assert (Hall : Forall (fun url =>
                           Forall (fun h => never_raises (Handler.get_product_info h url))
                                  (handlers_of (W:=W) config api))
                   (extract_urls text)).
  { apply Forall_forall. intros url (pre & post & Hurl)%extracted_url_occurs.
    rewrite Hurl in Htext. apply forallb_part in Htext.
    repeat constructor.
    - by apply aliexpress_returns.
    - apply amazon_returns. }
  destruct (for_urls_returns _ _ Hall st) as ([] & st' & ->). by exists st'.
Qed.

(** X16. With an AliExpress secret and key that are encodable text,
    and a message text that is, the one exception that can leave
    [modify_link] is the one of the constructor of the Amazon client,
    which runs for every message that reaches the handlers, outside
    every [try]: when the client is built, [modify_link] returns,
    whatever the requests, the responses and the Amazon lookups do;
    when the constructor raises, [modify_link] raises the same, before
    any reply, also for a text without URL. (Sending a reply is taken
    not to fail.) *)
Theorem modify_link_raises_only_at_construction config update (st : Eff.st W) :
  forallb UTF8.encodable (aliexpress_app_secret config) = true ->
  forallb UTF8.encodable (aliexpress_app_key config) = true ->
  (forall message text,
      telegram.message update = Some message ->
      telegram.text message = Some text ->
      forallb UTF8.encodable text = true) ->
  (forall api w,
      new_client config (Eff.world st) = (Returns api, w) ->
      exists st', modify_link config update st = (Returns tt, st'))
  /\ (forall e st',
        modify_link config update st = (Raises e, st') ->
        new_client config (Eff.world st) = (Raises e, Eff.world st')
        /\ Eff.outbox st' = Eff.outbox st)
  /\ (forall e w message text user,
        new_client config (Eff.world st) = (Raises e, w) ->
        telegram.message update = Some message ->
        telegram.text message = Some text -> text <> [] ->
        telegram.effective_user update = Some user ->
        truthy (is_user_excluded config user) = false ->
        modify_link config update st = (Raises e, Eff.St w (Eff.outbox st))).
Proof.
  intros Hsecret Hkey Htext. split; [|split].
  - intros api w Hnew. unfold modify_link.
    destruct (telegram.message update) as [message|]; [|by eexists].
    specialize (Htext message).
    destruct (telegram.text message) as [[|c text]|] eqn:Hmessage;
      [by eexists| |by eexists].
    specialize (Htext (c :: text) eq_refl eq_refl).
    destruct (telegram.effective_user update) as [user|]; [|by eexists].
    destruct (truthy (is_user_excluded config user)); [by eexists|].
    rewrite process_link_handlers_unfold, Hnew.
    unfold prepare_message. rewrite Hmessage.
    by apply for_urls_of_text_returns.
  - intros e st'. unfold modify_link.
    destruct (telegram.message update) as [message|]; [|done].
    specialize (Htext message).
    destruct (telegram.text message) as [[|c text]|] eqn:Hmessage; [done| |done].
    specialize (Htext (c :: text) eq_refl eq_refl).
    destruct (telegram.effective_user update) as [user|]; [|done].
    destruct (truthy (is_user_excluded config user)); [done|].
    rewrite process_link_handlers_unfold.
    unfold prepare_message. rewrite Hmessage.
    destruct (new_client config (Eff.world st)) as [[api|e'] w].
    + destruct (for_urls_of_text_returns config api (c :: text)
                  (Eff.St w (Eff.outbox st)) Hsecret Hkey Htext) as [st'' ->].
      done.
    + by intros [= <- <-].
  - intros e w message text user Hnew Hmessage Htext' Hne Huser Hexcl.
    unfold modify_link. rewrite Hmessage, Htext'.
    destruct text as [|c text]; [done|].
    rewrite Huser, Hexcl, process_link_handlers_unfold, Hnew. done.
Qed.
End Replies.

(** The AliExpress handler stands first and does not accept the URL;
    the Amazon handler accepts it and finds the product; a handler that
    would accept the URL as well stands after it, and is not asked:
    there is one lookup, one request to the shortener and one reply. *)
Lemma product_reply_ends_loop_witness :
  let O := Sample.outside Sample.gadget Sample.shortened (Sample.widget None) in
  let url := py "https://www.amazon.com/dp/B000123ABC/ref=x" in
  let aliexpress := @AliexpressAPIHandler.handler Sample.latin1 nat O Sample.aliexpress in
  let amazon := @AmazonAPIHandler.handler nat O Sample.amazon in
  Handler.can_handle aliexpress url = false
  /\ Handler.can_handle amazon url = true
  /\ @for_handlers nat O ([aliexpress] ++ amazon :: [amazon]) url (Eff.St 0 [])
     = (Returns tt,
        Eff.St 2 [product_reply Sample.widget_product (py "https://tinyurl.com/2abc")]).
Proof.
  intros O url aliexpress amazon.
  split; [vm_compute; reflexivity|]. split; [vm_compute; reflexivity|].
  destruct (@product_reply_ends_loop nat O [aliexpress] amazon [amazon] url
              (Eff.St 0 []) (Eff.St 1 []) Sample.widget_product)
    as (link & st2 & Hshort & Hloop).
  - repeat constructor.
  - vm_compute. reflexivity.
  - vm_compute. reflexivity.
  - rewrite Hloop. vm_compute in Hshort. injection Hshort as <- <-. reflexivity.
Defined.

Lemma reply_needs_handled_url_witness :
  let O := Sample.outside Sample.gadget Sample.unavailable (Sample.widget None) in
  let update := {|
    telegram.message :=
      Some (Sample.message "check this https://www.amazon.com/dp/B000123ABC/ref=x");
    telegram.effective_user :=
      Some {| telegram.id := 9; telegram.username := Some (py "buyer") |} |} in
  exists message text user,
    telegram.message update = Some message
    /\ telegram.text message = Some text /\ text <> []
    /\ telegram.effective_user update = Some user
    /\ truthy (is_user_excluded Sample.config user) = false
    /\ exists url,
         url ∈ @extract_urls Sample.latin1 text
         /\ (occurs_in (py "aliexpress.com") url \/ occurs_in (py "amazon.") url).
Proof.
  intros O update.
  refine (@reply_needs_handled_url Sample.latin1 nat O Sample.config update (Eff.St 0 []) _).
  vm_compute. discriminate.
Defined.

(** With a library whose constructor raises, a message without any URL
    from a sender who is not excluded makes [modify_link] raise; with
    one that builds the client, a message with two URLs, a product API
    that is down and an Amazon API that raises, is processed to its
    end. *)
Lemma modify_link_raises_only_at_construction_witness :
  let user := {| telegram.id := 9; telegram.username := Some (py "buyer") |} in
  let hello := {|
    telegram.message := Some (Sample.message "hello");
    telegram.effective_user := Some user |} in
  let links := {|
    telegram.message :=
      Some (Sample.message
              "https://es.aliexpress.com/item/1005006123456.html https://www.amazon.es/dp/B08N5WRWNW");
    telegram.effective_user := Some user |} in
  let broken := Sample.no_client Sample.unavailable Sample.unavailable in
  let down := Sample.outside Sample.unavailable Sample.unavailable
                (Raises (OtherException "TooManyRequests")) in
  @modify_link Sample.latin1 nat broken Sample.config hello (Eff.St 0 [])
  = (Raises TypeError, Eff.St 0 [])
  /\ exists st', @modify_link Sample.latin1 nat down Sample.config links (Eff.St 0 [])
                 = (Returns tt, st').
Proof.
  intros user hello links broken down. split.
  - refine (proj2 (proj2 (@modify_link_raises_only_at_construction Sample.latin1 nat broken
                            Sample.config hello (Eff.St 0 []) _ _ _))
              TypeError 0 (Sample.message "hello") (py "hello") user _ _ _ _ _ _).
    + vm_compute. reflexivity.
    + vm_compute. reflexivity.
    + intros message text [= <-] [= <-]. vm_compute. reflexivity.
    + vm_compute. reflexivity.
    + reflexivity.
    + reflexivity.
    + vm_compute. discriminate.
    + reflexivity.
    + vm_compute. reflexivity.
  - refine (proj1 (@modify_link_raises_only_at_construction Sample.latin1 nat down
                     Sample.config links (Eff.St 0 []) _ _ _) Sample.client 0 _).
    + vm_compute. reflexivity.
    + vm_compute. reflexivity.
    + intros message text [= <-] [= <-]. vm_compute. reflexivity.
    + vm_compute. reflexivity.
Defined.

(* --------------------------------------------------------------------- *)
(** ** Senders without a name *)
(* --------------------------------------------------------------------- *)

(** X17. A sender without a user name, or with an empty one, is
    excluded exactly when the id is in the excluded set: the name is
    not looked up, not even the empty name. *)
Theorem nameless_user_excluded_by_id config user :
  telegram.username user = None \/ telegram.username user = Some [] ->
  truthy (is_user_excluded config user) = true <->
  inl (telegram.id user) ∈ excluded_users config.
Proof.
  intros Hname. unfold is_user_excluded, or_. simpl.
  destruct (decide (inl (telegram.id user) ∈ excluded_users config)) as [Hid|Hid].
  - by rewrite bool_decide_eq_true_2.
  - rewrite bool_decide_eq_false_2 by done. simpl.
    by destruct Hname as [-> | ->].
Qed.

Lemma nameless_user_excluded_by_id_witness :
  let user := {| telegram.id := 7; telegram.username := None |} in
  truthy (is_user_excluded Sample.config user) = true <->
  inl (telegram.id user) ∈ excluded_users Sample.config.
Proof.
  intros user. apply (nameless_user_excluded_by_id Sample.config user). by left.
Defined.

(* --------------------------------------------------------------------- *)
(** ** URLs without an identifier *)
(* --------------------------------------------------------------------- *)

Section Echo.
Context `{UnicodeData} {W : Type} `{Outside W}.

(** X18. A URL without product id and without ASIN costs no call to
    the outside and is echoed once by each handler that accepts it:
    twice when both [aliexpress.com] and [amazon.] occur in it. *)
Theorem echo_per_accepting_handler config api url (st : Eff.st W) :
  AliexpressAPIHandler.extract_product_id url = None ->
  AmazonAPIHandler.extract_asin url = None ->
  let echoes (accepts : bool) := if accepts then [fallback_reply url] else [] in
  for_handlers (handlers_of config api) url st
  = (Returns tt,
     Eff.St (Eff.world st)
       (Eff.outbox st
          ++ echoes (Text.contains (py "aliexpress.com") url)
          ++ echoes (Text.contains (py "amazon.") url))).
Proof.
  intros Hid Hasin echoes. destruct st as [w out]. simpl.
  unfold AliexpressAPIHandler.can_handle, AmazonAPIHandler.can_handle.
  unfold AliexpressAPIHandler.get_product_info, AmazonAPIHandler.get_product_info.
  rewrite Hid, Hasin. unfold fallback_reply in echoes. subst echoes.
  destruct (Text.contains (py "aliexpress.com") url);
    destruct (Text.contains (py "amazon.") url); simpl;
    unfold Eff.bind, Eff.try_, Eff.ret, Eff.send; simpl;
    rewrite <- ?app_assoc, ?app_nil_r; reflexivity.
Qed.
End Echo.

Lemma echo_per_accepting_handler_witness :
  let O := Sample.outside Sample.gadget Sample.shortened (Sample.widget None) in
  let url := py "https://es.aliexpress.com/store/1102345?utm_source=amazon.es" in
  @for_handlers nat O (@handlers_of Sample.latin1 nat O Sample.config Sample.client) url
    (Eff.St 0 [])
  = (Returns tt, Eff.St 0 [fallback_reply url; fallback_reply url]).
Proof.
  intros O url.
  refine (@echo_per_accepting_handler Sample.latin1 nat O Sample.config Sample.client url
            (Eff.St 0 []) _ _).
  - vm_compute. reflexivity.
  - vm_compute. reflexivity.
Defined.
